(** * The per-account chain orchestrator of py-evm (Helios fork)

  A shallow embedding of [evm/chains/base.py] (class [Chain]) and of
  [evm/vm/forks/helios_testnet/transactions.py]
  (class [HeliosTestnetReceiveTransaction]).

  Python integers are unbounded, so they are [Z]; [bytes] values (hashes,
  addresses, payloads) are [string]s, one character per byte; exceptions
  are values of [Exc]; a method that only reads returns a [result]; a method
  that assigns attributes of [self] or writes to the database is a function
  from the chain to a result and the chain it leaves behind, so that an
  exception raised half-way keeps what was written before it. *)

From Stdlib Require Import ZArith List String Ascii Lia.
From stdpp Require Import base gmap strings list sorting.

Open Scope Z_scope.

(** ** Exceptions and results *)

(** The exception classes the modelled code raises or lets through.
    [OtherError] stands for whatever else a ruleset (VM) may raise. *)
Inductive Exc : Type :=
| ValidationError
| HeaderNotFound
| TransactionNotFound
| VMNotFound
| CanonicalHeadNotFound
| NotEnoughTimeBetweenBlocks
| AttributeError
| TypeError
| InvalidQueueBlockState
| OtherError (tag : nat).

Inductive result (A : Type) : Type :=
| Ok (a : A)
| Raise (e : Exc).
Arguments Ok {A} a.
Arguments Raise {A} e.

Definition rbind {A B : Type} (m : result A) (k : A -> result B) : result B :=
  match m with
  | Ok a => k a
  | Raise e => Raise e
  end.

Notation "'let?' x := c 'in' k" := (rbind c (fun x => k))
  (at level 10, x name, c at level 100, k at level 200).
Notation "'let?' ' p := c 'in' k" := (rbind c (fun x => match x with p => k end))
  (at level 10, p pattern, c at level 100, k at level 200).

Definition is_ok {A : Type} (m : result A) : bool :=
  match m with Ok _ => true | Raise _ => false end.

(** ** Byte strings *)

Definition Hash32 : Type := string.
Definition Address : Type := string.

(** ** Validation helpers ([evm.validation], imported by both source files) *)

Definition UINT_256_MAX : Z := 2 ^ 256 - 1.

(** Modelled from the spec: [validate_uint256] is not among the sources; the
    spec has the input "validated as a non-negative integer fitting a 256-bit
    range", a failure being a [ValidationError]. *)
Definition validate_uint256 (value : Z) : result unit :=
  if value <? 0 then Raise ValidationError
  else if value >? UINT_256_MAX then Raise ValidationError
  else Ok tt.

(** Modelled from the spec: [validate_word] is not among the sources; a word
    is a 32-byte string, anything else is a [ValidationError]. *)
Definition validate_word (value : string) : result unit :=
  if Nat.eqb (String.length value) 32 then Ok tt else Raise ValidationError.

(** Modelled from the spec: [validate_gte] and [validate_lte] are not among
    the sources.  They compare [value] with a bound and raise
    [ValidationError] when it is on the wrong side.  The bound is an attribute
    that may be [None] (see [v_min] below); Python 3 refuses to order an [int]
    and [None] with a [TypeError]. *)
Definition validate_gte (value : Z) (minimum : option Z) : result unit :=
  match minimum with
  | None => Raise TypeError
  | Some m => if value <? m then Raise ValidationError else Ok tt
  end.

Definition validate_lte (value : Z) (maximum : option Z) : result unit :=
  match maximum with
  | None => Raise TypeError
  | Some m => if value >? m then Raise ValidationError else Ok tt
  end.

(** The order of the secp256k1 group. *)
Definition SECPK1_N : Z :=
  115792089237316195423570985008687907852837564279074904382605163141518161494337.

(** Modelled from the spec: [validate_lt_secpk1n] is not among the sources;
    the spec keeps [r] and [s] in "[1, curve_order)", this is the upper side. *)
Definition validate_lt_secpk1n (value : Z) : result unit :=
  if value >=? SECPK1_N then Raise ValidationError else Ok tt.

(** Modelled from the spec: [validate_lt_secpk1n2] is not among the sources;
    the spec keeps [s] "in the lower half of the curve order", and the name
    under which the source calls it says less than: [s] is to be strictly
    below [SECPK1_N // 2], the quotient rounded down, so [SECPK1_N // 2]
    itself is refused. *)
Definition validate_lt_secpk1n2 (value : Z) : result unit :=
  if value >=? SECPK1_N / 2 then Raise ValidationError else Ok tt.

(** ** Headers, transactions and blocks *)

Record BlockHeader : Type := {
  parent_hash : Hash32;
  block_number : Z;
  gas_limit : Z;
  gas_used : Z;
  timestamp : Z;
}.

Module HeliosTestnetTransaction.
Record t : Type := {
  nonce : Z;
  gas_price : Z;
  gas : Z;
  to : Address;
  value : Z;
  data : string;
  v : Z;
  r : Z;
  s : Z;
}.
End HeliosTestnetTransaction.

(** Modelled from the spec: [is_eip_155_signed_transaction] and
    [extract_chain_id] of [evm.utils.transactions] are not among the sources.
    "[v] encodes an optional chain id per an EIP-155-style scheme", with the
    window [{35 + 2 * chain_id, 36 + 2 * chain_id}]: a chain id is present
    from 35 on, and it is the one whose window holds [v]. *)
Definition is_eip_155_signed_transaction (v : Z) : bool := v >=? 35.

Definition extract_chain_id (v : Z) : Z :=
  if Z.even v then (v - 35 - 1) / 2 else (v - 35) / 2.

Module HeliosTestnetReceiveTransaction.
Record t : Type := {
  sender_block_hash : Hash32;
  transaction : HeliosTestnetTransaction.t;
  v : Z;
  r : Z;
  s : Z;
}.

(** The properties fall off their [if] without a [return] when the transaction
    is not EIP-155 signed: they are [None] then. *)
Definition chain_id (tx : t) : option Z :=
  if is_eip_155_signed_transaction (v tx) then Some (extract_chain_id (v tx))
  else None.

(** Under the same test [chain_id] is an integer, so the product is defined. *)
Definition v_min (tx : t) : option Z :=
  if is_eip_155_signed_transaction (v tx) then
    match chain_id tx with
    | Some cid => Some (35 + 2 * cid)
    | None => None
    end
  else None.

Definition v_max (tx : t) : option Z :=
  if is_eip_155_signed_transaction (v tx) then
    match chain_id tx with
    | Some cid => Some (36 + 2 * cid)
    | None => None
    end
  else None.

Section Validate.
(** [BaseReceiveTransaction.validate], reached through [super()]; it is not
    among the sources. *)
Variable super_validate : t -> result unit.

(** [HeliosTestnetReceiveTransaction.validate] *)
Definition validate (tx : t) : result unit :=
  let? _ := validate_uint256 (v tx) in
  let? _ := validate_uint256 (r tx) in
  let? _ := validate_uint256 (s tx) in
  let? _ := validate_lt_secpk1n (r tx) in
  let? _ := validate_gte (r tx) (Some 1) in
  let? _ := validate_lt_secpk1n (s tx) in
  let? _ := validate_gte (s tx) (Some 1) in
  let? _ := validate_gte (v tx) (v_min tx) in
  let? _ := validate_lte (v tx) (v_max tx) in
  let? _ := super_validate tx in
  validate_lt_secpk1n2 (s tx).
End Validate.
End HeliosTestnetReceiveTransaction.

Abbreviation BaseTransaction := HeliosTestnetTransaction.t.
Abbreviation BaseReceiveTransaction := HeliosTestnetReceiveTransaction.t.

(** What [add_transaction_to_queue_block] and [get_canonical_transaction]
    handle: the code tells the two kinds apart with [isinstance]. *)
Inductive AnyTransaction : Type :=
| Send (tx : BaseTransaction)
| Receive (rtx : BaseReceiveTransaction).

(** The class of a ruleset's send transactions, what
    [VM.get_transaction_class()] returns: the database is handed it to decode
    what it has stored. *)
Record TransactionClass : Type := {
  tx_cls_fork : nat;
}.

(** The runtime class of a block.  Every ruleset has a block class and a queue
    block class (as [PhotonBlock] and [PhotonQueueBlock] in
    [hvm/vm/forks/photon]); the queue block classes derive from
    [BaseQueueBlock]. *)
Record BlockClass : Type := {
  cls_fork : nat;
  cls_is_queue : bool;
}.

Definition BlockClass_eqb (a b : BlockClass) : bool :=
  Nat.eqb (cls_fork a) (cls_fork b) && Bool.eqb (cls_is_queue a) (cls_is_queue b).

Module BaseBlock.
Record t : Type := {
  class : BlockClass;
  header : BlockHeader;
  transactions : list BaseTransaction;
  receive_transactions : list BaseReceiveTransaction;
}.

(** [block.number] *)
Definition number (b : t) : Z := block_number (header b).

(** Modelled from the spec: the [is_genesis] property is not among the
    sources; the spec numbers the blocks of a chain "starting at 0 (genesis)". *)
Definition is_genesis (b : t) : bool := number b =? 0.
End BaseBlock.

Abbreviation Block := BaseBlock.t.

(** [isinstance(block, cls)] for a block class. *)
Definition isinstance (block : Block) (cls : BlockClass) : bool :=
  BlockClass_eqb (BaseBlock.class block) cls.

(** Modelled from the spec: [validate_is_queue_block] is not among the
    sources; "Reject ([InvalidQueueBlockState]) if the existing queue block is
    not a mutable staging block". *)
Definition validate_is_queue_block (block : Block) : result unit :=
  if cls_is_queue (BaseBlock.class block) then Ok tt else Raise InvalidQueueBlockState.

(** A key of the receivable index ([evm.rlp.accounts.TransactionKey]). *)
Record TransactionKey : Type := {
  transaction_hash : Hash32;
  key_sender_block_hash : Hash32;
}.

(** A Python value that is either [False] or an object. *)
Inductive FalseOr (A : Type) : Type :=
| PyFalse
| Obj (a : A).
Arguments PyFalse {A}.
Arguments Obj {A} a.

(** The keyword arguments of [create_header_from_parent]. *)
Definition HeaderParams : Type := list (string * Z).

(** ** Chain storage ([evm.db.chain.ChainDB]) *)

(** Modelled from the spec: [ChainDB] is not among the sources.  The spec's
    storage contract is "block storage keyed by hash", a "reverse index from
    transaction hash to (block hash, index within block, send/receive flag)"
    and, per address, the "current canonical head block hash". *)
Record ChainDB : Type := {
  db_headers : gmap string BlockHeader;
  db_canonical_head : option Hash32;
  db_transactions : gmap string (list BaseTransaction);
  db_receive_transactions : gmap string (list BaseReceiveTransaction);
  db_transaction_index : gmap string (Hash32 * nat * bool);
}.

(** ** Rulesets ([evm.vm.base.VM], one class per fork) *)

(** The ruleset classes are not among the sources; the chain only delegates to
    them.  A class is the record of what the chain calls on it: the static
    [create_header_from_parent], [get_queue_block_class] and
    [get_transaction_class], and the methods of
    an instance, which was built from a header and reads and writes the
    chain's database. *)
Record VMClass : Type := {
  vm_fork : nat;
  get_queue_block_class : BlockClass;
  get_transaction_class : TransactionClass;
  vm_create_header_from_parent : BlockHeader -> HeaderParams -> result BlockHeader;
  vm_block : ChainDB -> BlockHeader -> Block;
  vm_check_time_since_parent_block : ChainDB -> BlockHeader -> Block -> result bool;
  vm_import_block : ChainDB -> BlockHeader -> Block -> result Block * ChainDB;
  vm_get_receivable_transactions : ChainDB -> BlockHeader -> Address -> list TransactionKey;
}.

(** [vm_class(header=header, chaindb=self.chaindb, ...)] *)
Record VM : Type := {
  vm_class : VMClass;
  vm_header : BlockHeader;
}.

(** ** The chain object *)

Record Chain : Type := {
  vm_configuration : option (list (Z * VMClass));
  network_id : Z;
  wallet_address : Address;
  header : BlockHeader;
  queue_block : option Block;
  chaindb : ChainDB;
}.

Definition set_header (h : BlockHeader) (c : Chain) : Chain :=
  {| vm_configuration := vm_configuration c; network_id := network_id c;
     wallet_address := wallet_address c; header := h;
     queue_block := queue_block c; chaindb := chaindb c |}.

Definition set_queue_block (q : option Block) (c : Chain) : Chain :=
  {| vm_configuration := vm_configuration c; network_id := network_id c;
     wallet_address := wallet_address c; header := header c;
     queue_block := q; chaindb := chaindb c |}.

Definition set_chaindb (db : ChainDB) (c : Chain) : Chain :=
  {| vm_configuration := vm_configuration c; network_id := network_id c;
     wallet_address := wallet_address c; header := header c;
     queue_block := queue_block c; chaindb := db |}.

(** A method of the chain that may assign to [self]: it returns its result or
    the exception, and the chain as the call leaves it. *)
Definition M (A : Type) : Type := Chain -> result A * Chain.

Definition mret {A : Type} (a : A) : M A := fun c => (Ok a, c).

Definition raise {A : Type} (e : Exc) : M A := fun c => (Raise e, c).

Definition mbind {A B : Type} (m : M A) (k : A -> M B) : M B :=
  fun c =>
    match m c with
    | (Ok a, c') => k a c'
    | (Raise e, c') => (Raise e, c')
    end.

(** A call that reads [self] and may raise. *)
Definition reads {A : Type} (f : Chain -> result A) : M A := fun c => (f c, c).

(** An assignment to an attribute of [self]. *)
Definition assign (f : Chain -> Chain) : M unit := fun c => (Ok tt, f c).

Notation "'do' x <- c ; k" := (mbind c (fun x => k))
  (at level 10, x name, c at level 100, k at level 200).

(** ** What the chain takes from outside *)

(** The wall clock, the hash functions (keccak over the RLP encoding) and the
    helpers of [evm.utils] that are not among the sources. *)
Class Externals : Type := {
  (** [int(time.time())] *)
  time_time : Z;
  (** [header.hash], which is also [block.hash] *)
  header_hash : BlockHeader -> Hash32;
  (** [transaction.hash] *)
  send_hash : BaseTransaction -> Hash32;
  receive_hash : BaseReceiveTransaction -> Hash32;
  (** [evm.utils.headers.compute_gas_limit_bounds]: [(low, high)] *)
  compute_gas_limit_bounds : BlockHeader -> Z * Z;
  (** [evm.utils.rlp.ensure_imported_block_unchanged] *)
  ensure_imported_block_unchanged : Block -> Block -> result unit;
  (** what the database makes of a stored transaction when it decodes it with
      the transaction class it is handed; the codec is not among the sources *)
  decode_transaction : TransactionClass -> AnyTransaction -> result AnyTransaction;
}.

Section ChainMethods.
Context `{Externals}.

(** [block.hash] *)
Definition block_hash (b : Block) : Hash32 := header_hash (BaseBlock.header b).

Definition any_hash (t : AnyTransaction) : Hash32 :=
  match t with
  | Send tx => send_hash tx
  | Receive rtx => receive_hash rtx
  end.

(** *** Storage operations *)

(** Modelled from the spec: [ChainDB.get_block_header_by_hash] is not among
    the sources.  A lookup by hash; the chain catches [HeaderNotFound] around
    its call in [get_chain_at_block_parent], which is what a miss raises. *)
Definition db_get_block_header_by_hash (db : ChainDB) (h : Hash32) : result BlockHeader :=
  match db_headers db !! h with
  | Some hd => Ok hd
  | None => Raise HeaderNotFound
  end.

(** Modelled from the spec: [ChainDB.get_canonical_head] is not among the
    sources.  "[headOf(address)] (fails [NoHeadDefined] if unset)"; the
    docstring of [Chain.get_canonical_head] names the exception
    [CanonicalHeadNotFound]. *)
Definition db_get_canonical_head (db : ChainDB) : result BlockHeader :=
  match db_canonical_head db with
  | None => Raise CanonicalHeadNotFound
  | Some h => db_get_block_header_by_hash db h
  end.

Fixpoint index_transactions (bh : Hash32) (is_receive : bool) (hashes : list Hash32)
    (i : nat) (idx : gmap string (Hash32 * nat * bool)) : gmap string (Hash32 * nat * bool) :=
  match hashes with
  | [] => idx
  | h :: rest => index_transactions bh is_receive rest (S i) (<[h := (bh, i, is_receive)]> idx)
  end.

(** Modelled from the spec: [ChainDB.persist_block] is not among the sources.
    "Persist the block (commit to chain storage and advance the Head
    Registry's checkpoint for this address)". *)
Definition db_persist_block (db : ChainDB) (block : Block) : ChainDB :=
  let bh := block_hash block in
  {| db_headers := <[bh := BaseBlock.header block]> (db_headers db);
     db_canonical_head := Some bh;
     db_transactions := <[bh := BaseBlock.transactions block]> (db_transactions db);
     db_receive_transactions :=
       <[bh := BaseBlock.receive_transactions block]> (db_receive_transactions db);
     db_transaction_index :=
       index_transactions bh true (map receive_hash (BaseBlock.receive_transactions block)) 0
         (index_transactions bh false (map send_hash (BaseBlock.transactions block)) 0
            (db_transaction_index db)) |}.

(** Modelled from the spec: [ChainDB.get_transaction_index] and the two
    lookups by block hash and index are not among the sources; a miss is a
    [TransactionNotFound], as the docstring of [get_canonical_transaction] has
    it.  The lookups take the transaction class to decode with, and return
    what the decoding makes of the stored transaction. *)
Definition db_get_transaction_index (db : ChainDB) (h : Hash32) : result (Hash32 * nat * bool) :=
  match db_transaction_index db !! h with
  | Some entry => Ok entry
  | None => Raise TransactionNotFound
  end.

Definition db_get_transaction_by_index_and_block_hash (db : ChainDB) (bh : Hash32)
    (index : nat) (transaction_class : TransactionClass) : result AnyTransaction :=
  match db_transactions db !! bh with
  | Some txs =>
      match txs !! index with
      | Some tx => decode_transaction transaction_class (Send tx)
      | None => Raise TransactionNotFound
      end
  | None => Raise TransactionNotFound
  end.

Definition db_get_receive_transaction_by_index_and_block_hash (db : ChainDB) (bh : Hash32)
    (index : nat) (transaction_class : TransactionClass) : result AnyTransaction :=
  match db_receive_transactions db !! bh with
  | Some txs =>
      match txs !! index with
      | Some rtx => decode_transaction transaction_class (Receive rtx)
      | None => Raise TransactionNotFound
      end
  | None => Raise TransactionNotFound
  end.

(** *** Queue block operations *)

(** Modelled from the spec: the queue block's [contains_transaction],
    [add_transaction] and their receive twins are not among the sources.
    "send transactions are added only if not already present (by hash) in the
    queue block's send list; receive transactions likewise". *)
Definition contains_transaction (b : Block) (tx : BaseTransaction) : bool :=
  existsb (fun t => String.eqb (send_hash t) (send_hash tx)) (BaseBlock.transactions b).

Definition add_transaction (b : Block) (tx : BaseTransaction) : Block :=
  {| BaseBlock.class := BaseBlock.class b;
     BaseBlock.header := BaseBlock.header b;
     BaseBlock.transactions := BaseBlock.transactions b ++ [tx];
     BaseBlock.receive_transactions := BaseBlock.receive_transactions b |}.

Definition contains_receive_transaction (b : Block) (rtx : BaseReceiveTransaction) : bool :=
  existsb (fun t => String.eqb (receive_hash t) (receive_hash rtx))
    (BaseBlock.receive_transactions b).

Definition add_receive_transaction (b : Block) (rtx : BaseReceiveTransaction) : Block :=
  {| BaseBlock.class := BaseBlock.class b;
     BaseBlock.header := BaseBlock.header b;
     BaseBlock.transactions := BaseBlock.transactions b;
     BaseBlock.receive_transactions := BaseBlock.receive_transactions b ++ [rtx] |}.

(** *** VM API *)

(** The [for ...  else] of [get_vm_class_for_block_timestamp], over
    [reversed(cls.vm_configuration)]. *)
Fixpoint scan_vm_configuration (timestamp : Z) (reversed : list (Z * VMClass)) : result VMClass :=
  match reversed with
  | [] => Raise VMNotFound
  | (start_timestamp, vm_class) :: rest =>
      if timestamp >=? start_timestamp then Ok vm_class
      else scan_vm_configuration timestamp rest
  end.

(** [Chain.get_vm_class_for_block_timestamp], a class method: it reads the
    class attribute [vm_configuration] and, when no timestamp is passed, the
    clock. *)
Definition get_vm_class_for_block_timestamp (cfg : option (list (Z * VMClass)))
    (timestamp : option Z) : result VMClass :=
  let timestamp := match timestamp with None => time_time | Some t => t end in
  match cfg with
  | None => Raise AttributeError
  | Some conf =>
      let? _ := validate_uint256 timestamp in
      scan_vm_configuration timestamp (rev conf)
  end.

(** [Chain.get_vm] *)
Definition get_vm (c : Chain) (hd : option BlockHeader) : result VM :=
  let hd := match hd with None => header c | Some h => h end in
  let? cls := get_vm_class_for_block_timestamp (vm_configuration c) (Some (timestamp hd)) in
  Ok {| vm_class := cls; vm_header := hd |}.

(** *** Header API *)

(** [Chain.create_header_from_parent]: no timestamp goes to the resolver. *)
Definition create_header_from_parent (c : Chain) (parent_header : BlockHeader)
    (header_params : HeaderParams) : result BlockHeader :=
  let? cls := get_vm_class_for_block_timestamp (vm_configuration c) None in
  vm_create_header_from_parent cls parent_header header_params.

(** [Chain.get_block_header_by_hash] *)
Definition get_block_header_by_hash (c : Chain) (h : Hash32) : result BlockHeader :=
  let? _ := validate_word h in
  db_get_block_header_by_hash (chaindb c) h.

(** [Chain.get_canonical_head] *)
Definition get_canonical_head (c : Chain) : result BlockHeader :=
  db_get_canonical_head (chaindb c).

(** *** Block API *)

(** [Chain.get_block]: [self.get_vm().block] *)
Definition get_block (c : Chain) : result Block :=
  let? vm := get_vm c None in
  Ok (vm_block (vm_class vm) (chaindb c) (vm_header vm)).

(** *** Queue block API *)

(** [Chain.add_transaction_to_queue_block].  [qb] is [self.queue_block] once
    the first statement has filled it in. *)
Definition add_transaction_to_queue_block (transaction : AnyTransaction) : M unit :=
  do qb <- (fun c =>
              match queue_block c with
              | None =>
                  (do b <- reads get_block;
                   do _ <- assign (set_queue_block (Some b));
                   mret b) c
              | Some b => mret b c
              end);
  do _ <- reads (fun _ => validate_is_queue_block qb);
  match transaction with
  | Send tx =>
      if negb (contains_transaction qb tx)
      then assign (set_queue_block (Some (add_transaction qb tx)))
      else mret tt
  | Receive rtx =>
      if negb (contains_receive_transaction qb rtx)
      then assign (set_queue_block (Some (add_receive_transaction qb rtx)))
      else mret tt
  end.

(** The [for tx in transactions] of [add_transactions_to_queue_block]. *)
Fixpoint add_each_to_queue_block (transactions : list AnyTransaction) : M unit :=
  match transactions with
  | [] => mret tt
  | tx :: rest =>
      do _ <- add_transaction_to_queue_block tx;
      add_each_to_queue_block rest
  end.

(** [Chain.add_transactions_to_queue_block]: the argument is a list or, when
    [isinstance(transactions, list)] fails, one transaction. *)
Definition add_transactions_to_queue_block
    (transactions : AnyTransaction + list AnyTransaction) : M unit :=
  match transactions with
  | inl tx => add_transaction_to_queue_block tx
  | inr txs => add_each_to_queue_block txs
  end.

(** *** Transaction API *)

(** [Chain.get_canonical_transaction].  Both lookups are handed
    [VM.get_transaction_class()], the class of send transactions, also the
    one that reads a receive transaction. *)
Definition get_canonical_transaction (c : Chain) (h : Hash32) : result AnyTransaction :=
  let? ' (bh, index, is_receive) := db_get_transaction_index (chaindb c) h in
  let? block_header := get_block_header_by_hash c bh in
  let? VM := get_vm_class_for_block_timestamp (vm_configuration c)
               (Some (timestamp block_header)) in
  let? transaction :=
    (if negb is_receive
     then db_get_transaction_by_index_and_block_hash (chaindb c) bh index
            (get_transaction_class VM)
     else db_get_receive_transaction_by_index_and_block_hash (chaindb c) bh index
            (get_transaction_class VM)) in
  if String.eqb (any_hash transaction) h then Ok transaction
  else Raise TransactionNotFound.

(** The loop of [get_receivable_transactions]: [transactions] is the list
    built so far, [append] puts the next one at its end. *)
Fixpoint resolve_receivable (c : Chain) (transactions : list AnyTransaction)
    (tx_keys : list TransactionKey) : result (list AnyTransaction) :=
  match tx_keys with
  | [] => Ok transactions
  | tx_key :: rest =>
      let? tx := get_canonical_transaction c (transaction_hash tx_key) in
      resolve_receivable c (transactions ++ [tx]) rest
  end.

(** [Chain.get_receivable_transactions] *)
Definition get_receivable_transactions (c : Chain) (address : Address)
    : result (FalseOr (list AnyTransaction) * FalseOr (list TransactionKey)) :=
  let? vm := get_vm c None in
  let tx_keys :=
    vm_get_receivable_transactions (vm_class vm) (chaindb c) (vm_header vm) address in
  if Nat.eqb (length tx_keys) 0 then Ok (PyFalse, PyFalse)
  else
    let? transactions := resolve_receivable c [] tx_keys in
    Ok (Obj transactions, Obj tx_keys).

(** *** Validation API *)

(** [Chain.validate_gaslimit] *)
Definition validate_gaslimit (c : Chain) (hd : BlockHeader) : result unit :=
  let? parent_header := get_block_header_by_hash c (parent_hash hd) in
  let '(low_bound, high_bound) := compute_gas_limit_bounds parent_header in
  if gas_limit hd <? low_bound then Raise ValidationError
  else if gas_limit hd >? high_bound then Raise ValidationError
  else Ok tt.

(** [Chain.validate_block] *)
Definition validate_block (c : Chain) (block : Block) : result unit :=
  validate_gaslimit c (BaseBlock.header block).

(** *** Execution API *)

(** [Chain.import_block] *)
Definition import_block (block : Block) (perform_validation : bool) : M Block :=
  do _ <- (if negb (BaseBlock.is_genesis block)
           then
             do enough <- reads (fun c =>
                            let? vm := get_vm c None in
                            vm_check_time_since_parent_block
                              (vm_class vm) (chaindb c) (vm_header vm) block);
             if negb enough then raise NotEnoughTimeBetweenBlocks else mret tt
           else mret tt);
  do tip <- reads (fun c => Ok (header c));
  if negb (BaseBlock.number block =? block_number tip) then raise ValidationError
  else
    do vm <- reads (fun c => get_vm c (Some (BaseBlock.header block)));
    do imported_block <- (fun c =>
                            let '(res, db) :=
                              vm_import_block (vm_class vm) (chaindb c) (vm_header vm) block in
                            (res, set_chaindb db c));
    do tip_vm <- reads (fun c => get_vm c None);
    let perform_validation :=
      if isinstance block (get_queue_block_class (vm_class tip_vm)) then false
      else perform_validation in
    do _ <- (if perform_validation
             then
               do _ <- reads (fun _ => ensure_imported_block_unchanged imported_block block);
               reads (fun c => validate_block c imported_block)
             else mret tt);
    do _ <- assign (fun c => set_chaindb (db_persist_block (chaindb c) imported_block) c);
    do new_header <- reads (fun c =>
                       let? head := get_canonical_head c in
                       create_header_from_parent c head []);
    do _ <- assign (set_header new_header);
    do _ <- assign (set_queue_block None);
    mret imported_block.

(** *** What the spec asks of a ruleset *)

(** Modelled from the spec: the rulesets' [create_header_from_parent] is not
    among the sources.  The chain "delegates construction (numbering, ...) to
    that ruleset", and the tip it builds is "the correct child header (number
    = imported.number + 1, parent_hash = imported.hash)". *)
Definition numbers_children (cls : VMClass) : Prop :=
  forall parent params child,
    vm_create_header_from_parent cls parent params = Ok child ->
    block_number child = block_number parent + 1 /\
    parent_hash child = header_hash parent.

(** The copies of a send transaction in a block, transactions being told apart
    by hash as [contains_transaction] does. *)
Definition count_transaction (b : Block) (tx : BaseTransaction) : nat :=
  length (List.filter (fun t => String.eqb (send_hash t) (send_hash tx))
            (BaseBlock.transactions b)).

(** [self.queue_block] as [add_transaction_to_queue_block] sees it after its
    first statement. *)
Definition staged_block (c : Chain) : result Block :=
  match queue_block c with
  | None => get_block c
  | Some b => Ok b
  end.

End ChainMethods.

(** ** The rest of the chain's methods *)

(** Exception classes the methods below meet and the ones above do not:
    they are told apart from a ruleset's own by their tag. *)
Definition IndexError : Exc := OtherError 1.

(** [range(lo, hi)] *)
Definition python_range (lo hi : Z) : list Z :=
  map (fun i => lo + Z.of_nat i) (seq 0 (Z.to_nat (hi - lo))).

(** A generator under [@to_tuple]: the values in the order yielded, or the
    first exception. *)
Fixpoint to_tuple {A B : Type} (f : A -> result B) (l : list A) : result (list B) :=
  match l with
  | [] => Ok []
  | x :: rest =>
      let? y := f x in
      let? ys := to_tuple f rest in
      Ok (y :: ys)
  end.

Section MoreChainMethods.
Context `{Externals}.

(** [ChainDB.get_canonical_block_hash], the lookup of a hash by block number;
    it is not among the sources and the storage record above has no such
    index, so it is taken as it comes. *)
Variable db_get_canonical_block_hash : ChainDB -> Z -> result Hash32.

(** [self.private_key], and [create_transaction_signature] of
    [evm.utils.transactions], which is not among the sources. *)
Variable BaseKey : Type.
Variable private_key : option BaseKey.
Variable create_transaction_signature :
  BaseReceiveTransaction -> option BaseKey -> Z -> result (Z * Z * Z).

(** The ruleset's [create_receive_transaction], not among the sources. *)
Variable vm_create_receive_transaction :
  VM -> ChainDB -> Hash32 -> AnyTransaction -> Z -> Z -> Z -> result BaseReceiveTransaction.

(** [Chain.get_chain_at_block_parent].  The last line calls the class with
    four arguments, [__init__] takes three besides [self]: Python raises
    [TypeError] before the body of [__init__] runs. *)
Definition get_chain_at_block_parent (c : Chain) (block : Block) : result Chain :=
  match get_block_header_by_hash c (parent_hash (BaseBlock.header block)) with
  | Raise HeaderNotFound => Raise ValidationError
  | Raise e => Raise e
  | Ok parent_header =>
      let? init_header := create_header_from_parent c parent_header [] in
      Raise TypeError
  end.

(** [Chain.get_block_by_header] *)
Definition get_block_by_header (c : Chain) (block_header : BlockHeader) : result Block :=
  let? vm := get_vm c (Some block_header) in
  Ok (vm_block (vm_class vm) (chaindb c) (vm_header vm)).

(** [Chain.get_block_by_hash] *)
Definition get_block_by_hash (c : Chain) (h : Hash32) : result Block :=
  let? _ := validate_word h in
  let? block_header := get_block_header_by_hash c h in
  get_block_by_header c block_header.

(** [Chain.get_canonical_block_by_number] *)
Definition get_canonical_block_by_number (c : Chain) (number : Z) : result Block :=
  let? _ := validate_uint256 number in
  let? h := db_get_canonical_block_hash (chaindb c) number in
  get_block_by_hash c h.

(** [Chain.get_canonical_block_hash] *)
Definition get_canonical_block_hash (c : Chain) (number : Z) : result Hash32 :=
  db_get_canonical_block_hash (chaindb c) number.

(** [Chain.get_ancestors] *)
Definition get_ancestors (c : Chain) (limit : Z) (hd : option BlockHeader)
    : result (list Block) :=
  let hd := match hd with None => header c | Some h => h end in
  let lower_limit := Z.max (block_number hd - limit) 0 in
  to_tuple (fun n => get_canonical_block_by_number c n)
    (rev (python_range lower_limit (block_number hd))).

(** [HeliosTestnetReceiveTransaction.get_signed] *)
Definition receive_get_signed (tx : BaseReceiveTransaction) (key : option BaseKey)
    (chain_id : Z) : result BaseReceiveTransaction :=
  let? ' (v, r, s) := create_transaction_signature tx key chain_id in
  Ok {| HeliosTestnetReceiveTransaction.sender_block_hash :=
          HeliosTestnetReceiveTransaction.sender_block_hash tx;
        HeliosTestnetReceiveTransaction.transaction :=
          HeliosTestnetReceiveTransaction.transaction tx;
        HeliosTestnetReceiveTransaction.v := v;
        HeliosTestnetReceiveTransaction.r := r;
        HeliosTestnetReceiveTransaction.s := s |}.

(** The loop of [create_receivable_signed_transactions], from index [i] on:
    [tx_keys[i]] raises [IndexError] past the end of the keys. *)
Fixpoint sign_receivable (c : Chain) (tx_keys : list TransactionKey) (i : nat)
    (transactions : list AnyTransaction) : result (list BaseReceiveTransaction) :=
  match transactions with
  | [] => Ok []
  | tx :: rest =>
      let? vm := get_vm c None in
      let? tx_key := match tx_keys !! i with
                     | Some k => Ok k
                     | None => Raise IndexError
                     end in
      let? re_tx := vm_create_receive_transaction vm (chaindb c)
                      (key_sender_block_hash tx_key) tx 0 0 0 in
      let? re_tx := receive_get_signed re_tx private_key (network_id c) in
      let? signed := sign_receivable c tx_keys (S i) rest in
      Ok (re_tx :: signed)
  end.

(** What one round of that loop makes of the transaction at a position: the
    receive transaction the ruleset builds for it and for the sender block
    hash of the key at the same position, with the signature made with the
    chain's key for the chain's network id. *)
Definition signed_for (c : Chain) (vm : VM) (k : TransactionKey) (tx : AnyTransaction)
    (rtx : BaseReceiveTransaction) : Prop :=
  exists unsigned v r s,
    vm_create_receive_transaction vm (chaindb c) (key_sender_block_hash k) tx 0 0 0
    = Ok unsigned /\
    create_transaction_signature unsigned private_key (network_id c) = Ok (v, r, s) /\
    rtx = {| HeliosTestnetReceiveTransaction.sender_block_hash :=
               HeliosTestnetReceiveTransaction.sender_block_hash unsigned;
             HeliosTestnetReceiveTransaction.transaction :=
               HeliosTestnetReceiveTransaction.transaction unsigned;
             HeliosTestnetReceiveTransaction.v := v;
             HeliosTestnetReceiveTransaction.r := r;
             HeliosTestnetReceiveTransaction.s := s |}.

(** [Chain.create_receivable_signed_transactions].  A list is never equal to
    [False]; indexing [False] is a [TypeError]. *)
Definition create_receivable_signed_transactions (c : Chain)
    : result (list BaseReceiveTransaction) :=
  let? ' (transactions, tx_keys) := get_receivable_transactions c (wallet_address c) in
  match transactions with
  | PyFalse => Ok []
  | Obj txs =>
      match tx_keys with
      | Obj keys => sign_receivable c keys 0 txs
      | PyFalse =>
          match txs with
          | [] => Ok []
          | _ :: _ => let? _ := get_vm c None in Raise TypeError
          end
      end
  end.

(** [Chain.populate_queue_block_with_receive_tx] *)
Definition populate_queue_block_with_receive_tx : M (list BaseReceiveTransaction) :=
  do receive_tx <- reads create_receivable_signed_transactions;
  do _ <- add_transactions_to_queue_block (inr (map Receive receive_tx));
  mret receive_tx.

(** [Chain.import_current_queue_block].  With no queue block the first thing
    [import_block] does is read [is_genesis] off [None]: an
    [AttributeError]. *)
Definition import_current_queue_block : M unit :=
  fun c =>
    match queue_block c with
    | None => (Raise AttributeError, c)
    | Some block => (do _ <- import_block block true; mret tt) c
    end.

(** What one call of [add_transaction_to_queue_block] makes of the staged
    block. *)
Definition stage_transaction (qb : Block) (transaction : AnyTransaction) : Block :=
  match transaction with
  | Send tx => if contains_transaction qb tx then qb else add_transaction qb tx
  | Receive rtx =>
      if contains_receive_transaction qb rtx then qb else add_receive_transaction qb rtx
  end.

(** Whether the block holds the transaction, by the test of its kind. *)
Definition contains_any (qb : Block) (transaction : AnyTransaction) : bool :=
  match transaction with
  | Send tx => contains_transaction qb tx
  | Receive rtx => contains_receive_transaction qb rtx
  end.

End MoreChainMethods.

(** ** The send transaction ([HeliosTestnetTransaction]) *)

Module HeliosTestnetTransactionMethods.
Import HeliosTestnetTransaction.

(** The properties, as those of the receive transaction. *)
Definition chain_id (tx : t) : option Z :=
  if is_eip_155_signed_transaction (v tx) then Some (extract_chain_id (v tx))
  else None.

Definition v_min (tx : t) : option Z :=
  if is_eip_155_signed_transaction (v tx) then
    match chain_id tx with
    | Some cid => Some (35 + 2 * cid)
    | None => None
    end
  else None.

Definition v_max (tx : t) : option Z :=
  if is_eip_155_signed_transaction (v tx) then
    match chain_id tx with
    | Some cid => Some (36 + 2 * cid)
    | None => None
    end
  else None.

Section Methods.
(** Constants of [evm.constants] and validators of [evm.validation] that are
    not among the sources, and [BaseTransaction.validate]. *)
Variable CREATE_CONTRACT_ADDRESS : Address.
Variables GAS_TX GAS_TXCREATE GAS_TXDATAZERO GAS_TXDATANONZERO : Z.
Variable validate_canonical_address : Address -> result unit.
Variable validate_is_bytes : string -> result unit.
Variable super_validate : t -> result unit.

(** [HeliosTestnetTransaction.validate] *)
Definition validate (tx : t) : result unit :=
  let? _ := validate_uint256 (nonce tx) in
  let? _ := validate_uint256 (gas_price tx) in
  let? _ := validate_uint256 (gas tx) in
  let? _ := (if negb (String.eqb (to tx) CREATE_CONTRACT_ADDRESS)
             then validate_canonical_address (to tx)
             else Ok tt) in
  let? _ := validate_uint256 (value tx) in
  let? _ := validate_is_bytes (data tx) in
  let? _ := validate_uint256 (v tx) in
  let? _ := validate_uint256 (r tx) in
  let? _ := validate_uint256 (s tx) in
  let? _ := validate_lt_secpk1n (r tx) in
  let? _ := validate_gte (r tx) (Some 1) in
  let? _ := validate_lt_secpk1n (s tx) in
  let? _ := validate_gte (s tx) (Some 1) in
  let? _ := validate_gte (v tx) (v_min tx) in
  let? _ := validate_lte (v tx) (v_max tx) in
  let? _ := super_validate tx in
  validate_lt_secpk1n2 (s tx).

(** [transaction.data.count(b'\x00')] *)
Definition count_zero_bytes (data : string) : Z :=
  Z.of_nat (length (List.filter (fun b => Ascii.eqb b zero) (list_ascii_of_string data))).

(** [_get_helios_testnet_intrinsic_gas] *)
Definition _get_helios_testnet_intrinsic_gas (transaction : t) : Z :=
  let num_zero_bytes := count_zero_bytes (data transaction) in
  let num_non_zero_bytes := Z.of_nat (String.length (data transaction)) - num_zero_bytes in
  let create_cost :=
    if String.eqb (to transaction) CREATE_CONTRACT_ADDRESS then GAS_TXCREATE else 0 in
  GAS_TX
  + num_zero_bytes * GAS_TXDATAZERO
  + num_non_zero_bytes * GAS_TXDATANONZERO
  + create_cost.

(** [HeliosTestnetTransaction.get_intrinsic_gas] *)
Definition get_intrinsic_gas (tx : t) : Z := _get_helios_testnet_intrinsic_gas tx.

End Methods.
End HeliosTestnetTransactionMethods.

(** ** A small instance

    A clock reading, hash functions and two rulesets to run the definitions
    on.  The bounds are those of py-evm's [compute_gas_limit_bounds]; the
    rulesets number a child header after its parent and ask for [min_time]
    seconds between a block and its parent. *)

Definition word_of_Z (n : Z) : Hash32 :=
  String (ascii_of_N (Z.to_N (48 + n mod 10))) "0000000000000000000000000000000".

Definition GAS_LIMIT_ADJUSTMENT_FACTOR : Z := 1024.
Definition GAS_LIMIT_MINIMUM : Z := 5000.

Definition example_externals : Externals := {|
  time_time := 1000;
  header_hash := fun h => word_of_Z (block_number h);
  send_hash := fun tx => word_of_Z (HeliosTestnetTransaction.nonce tx);
  receive_hash := fun rtx => HeliosTestnetReceiveTransaction.sender_block_hash rtx;
  compute_gas_limit_bounds := fun parent =>
    let boundary_range := gas_limit parent / GAS_LIMIT_ADJUSTMENT_FACTOR in
    (Z.max GAS_LIMIT_MINIMUM (gas_limit parent - boundary_range),
     gas_limit parent + boundary_range);
  ensure_imported_block_unchanged := fun imported original =>
    if (block_number (BaseBlock.header imported) =? block_number (BaseBlock.header original))
       && (gas_limit (BaseBlock.header imported) =? gas_limit (BaseBlock.header original))
       && (timestamp (BaseBlock.header imported) =? timestamp (BaseBlock.header original))
       && String.eqb (parent_hash (BaseBlock.header imported))
            (parent_hash (BaseBlock.header original))
    then Ok tt else Raise ValidationError;
  decode_transaction := fun _ stored => Ok stored;
|}.

Definition example_vm (fork : nat) (min_time gas_step : Z) (pending : list TransactionKey)
    : VMClass := {|
  vm_fork := fork;
  get_queue_block_class := {| cls_fork := fork; cls_is_queue := true |};
  get_transaction_class := {| tx_cls_fork := fork |};
  vm_create_header_from_parent := fun parent _ =>
    Ok {| parent_hash := word_of_Z (block_number parent);
          block_number := block_number parent + 1;
          gas_limit := gas_limit parent + gas_step;
          gas_used := 0;
          timestamp := timestamp parent + min_time |};
  vm_block := fun _ hd =>
    {| BaseBlock.class := {| cls_fork := fork; cls_is_queue := true |};
       BaseBlock.header := hd;
       BaseBlock.transactions := [];
       BaseBlock.receive_transactions := [] |};
  vm_check_time_since_parent_block := fun db _ block =>
    match db_headers db !! parent_hash (BaseBlock.header block) with
    | Some parent => Ok (timestamp (BaseBlock.header block) - timestamp parent >=? min_time)
    | None => Raise HeaderNotFound
    end;
  vm_import_block := fun db _ block =>
    (Ok {| BaseBlock.class := {| cls_fork := fork; cls_is_queue := false |};
           BaseBlock.header :=
             {| parent_hash := parent_hash (BaseBlock.header block);
                block_number := block_number (BaseBlock.header block);
                gas_limit := gas_limit (BaseBlock.header block);
                gas_used := 21000 * Z.of_nat (length (BaseBlock.transactions block));
                timestamp := timestamp (BaseBlock.header block) |};
           BaseBlock.transactions := BaseBlock.transactions block;
           BaseBlock.receive_transactions := BaseBlock.receive_transactions block |}, db);
  vm_get_receivable_transactions := fun _ _ address =>
    if String.eqb address "receiver" then pending else [];
|}.

Definition example_tx (n : Z) : BaseTransaction :=
  {| HeliosTestnetTransaction.nonce := n; HeliosTestnetTransaction.gas_price := 1;
     HeliosTestnetTransaction.gas := 800000; HeliosTestnetTransaction.to := "receiver";
     HeliosTestnetTransaction.value := 1000; HeliosTestnetTransaction.data := "";
     HeliosTestnetTransaction.v := 38; HeliosTestnetTransaction.r := 1;
     HeliosTestnetTransaction.s := 1 |}.

Definition example_header (parent n ts gl : Z) : BlockHeader :=
  {| parent_hash := word_of_Z parent; block_number := n; gas_limit := gl;
     gas_used := 0; timestamp := ts |}.

Definition example_block (is_queue : bool) (hd : BlockHeader) (txs : list BaseTransaction)
    : Block :=
  {| BaseBlock.class := {| cls_fork := 1; cls_is_queue := is_queue |};
     BaseBlock.header := hd;
     BaseBlock.transactions := txs;
     BaseBlock.receive_transactions := [] |}.

Definition empty_db : ChainDB :=
  {| db_headers := ∅; db_canonical_head := None; db_transactions := ∅;
     db_receive_transactions := ∅; db_transaction_index := ∅ |}.

(** The genesis block of the example chain: number 0, stamped 100, sending
    transaction 7 to ["receiver"]. *)
Definition genesis_block : Block :=
  example_block false (example_header 9 0 100 3141592) [example_tx 7].

Definition example_db : ChainDB :=
  db_persist_block (H := example_externals) empty_db genesis_block.

Definition example_key : TransactionKey :=
  {| transaction_hash := word_of_Z 7; key_sender_block_hash := word_of_Z 0 |}.

Definition vm_a : VMClass := example_vm 1 10 0 [example_key].
Definition vm_b : VMClass := example_vm 2 10 1000 [example_key].

(** A chain whose head is the genesis block and whose tip is header 1. *)
Definition example_chain (conf : list (Z * VMClass)) : Chain :=
  {| vm_configuration := Some conf;
     network_id := 1;
     wallet_address := "wallet";
     header := example_header 0 1 110 3141592;
     queue_block := None;
     chaindb := example_db |}.

Definition one_fork : Chain := example_chain [(0, vm_a)].
Definition two_forks : Chain := example_chain [(0, vm_a); (500, vm_b)].

(** Block 5, three seconds after the genesis block. *)
Definition block_5_too_soon : Block :=
  example_block false (example_header 0 5 103 3141592) [].

(** Block 1 on the genesis block, with the parent's gas limit. *)
Definition block_1 : Block :=
  example_block false (example_header 0 1 203 3141592) [example_tx 8].

(** Block 1 again, of the queue block class, with a gas limit far above the
    parent's. *)
Definition queue_block_1 : Block :=
  example_block true (example_header 0 1 203 9141592) [example_tx 8].

(** Headers stamped under the first and under the second ruleset. *)
Definition parent_under_a : BlockHeader := example_header 9 0 100 3141592.
Definition parent_under_b : BlockHeader := example_header 0 1 600 3141592.

(** A header whose parent hash is a word the database does not hold. *)
Definition orphan_header : BlockHeader := example_header 5 6 300 3141592.

(** A receive transaction signed for chain 1. *)
Definition example_receive : BaseReceiveTransaction :=
  {| HeliosTestnetReceiveTransaction.sender_block_hash := word_of_Z 0;
     HeliosTestnetReceiveTransaction.transaction := example_tx 7;
     HeliosTestnetReceiveTransaction.v := 38;
     HeliosTestnetReceiveTransaction.r := 1;
     HeliosTestnetReceiveTransaction.s := 1 |}.




(** More of the small instance: a number index that knows the genesis block,
    a signer and a ruleset constructor for receive transactions, a clock
    that precedes every ruleset, and chains in the states the properties
    below are about. *)
Definition example_number_index : ChainDB -> Z -> result Hash32 :=
  fun _ number => if number =? 0 then Ok (word_of_Z 0) else Raise HeaderNotFound.

Definition example_sign : BaseReceiveTransaction -> option unit -> Z -> result (Z * Z * Z) :=
  fun _ _ chain_id => Ok (35 + 2 * chain_id, 1, 1).

Definition example_create_receive (vm : VM) (db : ChainDB) (sender_block_hash : Hash32)
    (transaction : AnyTransaction) (v r s : Z) : result BaseReceiveTransaction :=
  match transaction with
  | Send tx =>
      Ok {| HeliosTestnetReceiveTransaction.sender_block_hash := sender_block_hash;
            HeliosTestnetReceiveTransaction.transaction := tx;
            HeliosTestnetReceiveTransaction.v := v;
            HeliosTestnetReceiveTransaction.r := r;
            HeliosTestnetReceiveTransaction.s := s |}
  | Receive _ => Raise TypeError
  end.

Definition early_clock : Externals :=
  {| time_time := 50;
     header_hash := header_hash (Externals := example_externals);
     send_hash := send_hash (Externals := example_externals);
     receive_hash := receive_hash (Externals := example_externals);
     compute_gas_limit_bounds := compute_gas_limit_bounds (Externals := example_externals);
     ensure_imported_block_unchanged :=
       ensure_imported_block_unchanged (Externals := example_externals);
     decode_transaction := decode_transaction (Externals := example_externals) |}.

(** One ruleset, from 100 on. *)
Definition late_fork : Chain := example_chain [(100, vm_a)].

(** The chain of the address the genesis block sends to. *)
Definition receiver_chain : Chain :=
  {| vm_configuration := Some [(0, vm_a)];
     network_id := 1;
     wallet_address := "receiver";
     header := example_header 0 1 110 3141592;
     queue_block := None;
     chaindb := example_db |}.

(** A chain whose [queue_block] is a block of the plain block class. *)
Definition unstaged_chain : Chain := set_queue_block (Some block_1) one_fork.

(** A chain with transaction 8 staged. *)
Definition staged_chain : Chain :=
  (add_transaction_to_queue_block (H := example_externals) (Send (example_tx 8)) one_fork).2.

(** Block 1 with the gas limit of [queue_block_1], of the plain block class. *)
Definition wide_block_1 : Block :=
  example_block false (example_header 0 1 203 9141592) [example_tx 8].

(** A key whose transaction is in no block, after one that is. *)
Definition missing_key : TransactionKey :=
  {| transaction_hash := word_of_Z 3; key_sender_block_hash := word_of_Z 0 |}.

Definition half_resolved : Chain :=
  example_chain [(0, example_vm 1 10 0 [example_key; missing_key])].

(** Transaction 7 with a payload. *)
Definition example_tx_with_data (payload : string) : BaseTransaction :=
  {| HeliosTestnetTransaction.nonce := 7; HeliosTestnetTransaction.gas_price := 1;
     HeliosTestnetTransaction.gas := 800000; HeliosTestnetTransaction.to := "receiver";
     HeliosTestnetTransaction.value := 1000; HeliosTestnetTransaction.data := payload;
     HeliosTestnetTransaction.v := 38; HeliosTestnetTransaction.r := 1;
     HeliosTestnetTransaction.s := 1 |}.

(** Two bytes, the second of them zero, and one more byte. *)
Definition payload_head : string := String "a" (String zero EmptyString).
Definition payload_tail : string := String "b" EmptyString.

(** The example database with one more index entry: hash 3 filed at the place
    of transaction 7. *)
Definition misfiled_chain : Chain :=
  set_chaindb
    {| db_headers := db_headers example_db;
       db_canonical_head := db_canonical_head example_db;
       db_transactions := db_transactions example_db;
       db_receive_transactions := db_receive_transactions example_db;
       db_transaction_index :=
         <[word_of_Z 3 := (word_of_Z 0, 0%nat, false)]> (db_transaction_index example_db) |}
    one_fork.

(** A chain of network 3 with blocks 0 and 1 stored, whose ruleset has two
    keys pending for the wallet: transaction 7 of block 0 and transaction 8
    of block 1. *)
Definition second_key : TransactionKey :=
  {| transaction_hash := word_of_Z 8; key_sender_block_hash := word_of_Z 1 |}.

Definition two_pending_chain : Chain :=
  {| vm_configuration := Some [(0, example_vm 1 10 0 [example_key; second_key])];
     network_id := 3;
     wallet_address := "receiver";
     header := example_header 1 2 300 3141592;
     queue_block := None;
     chaindb := db_persist_block (H := example_externals) example_db block_1 |}.

(** The receive transaction of the example with [s] at half the order,
    rounded down. *)
Definition half_order_receive : BaseReceiveTransaction :=
  {| HeliosTestnetReceiveTransaction.sender_block_hash := word_of_Z 0;
     HeliosTestnetReceiveTransaction.transaction := example_tx 7;
     HeliosTestnetReceiveTransaction.v := 38;
     HeliosTestnetReceiveTransaction.r := 1;
     HeliosTestnetReceiveTransaction.s := SECPK1_N / 2 |}.

(** An address is canonical when it is twenty bytes long. *)
Definition example_validate_canonical_address (a : Address) : result unit :=
  if Nat.eqb (String.length a) 20 then Ok tt else Raise ValidationError.

(** Transaction 7 sent to an address of twenty bytes. *)
Definition example_tx_to_address : BaseTransaction :=
  {| HeliosTestnetTransaction.nonce := 7; HeliosTestnetTransaction.gas_price := 1;
     HeliosTestnetTransaction.gas := 800000;
     HeliosTestnetTransaction.to := "receiver-of-20-bytes";
     HeliosTestnetTransaction.value := 1000; HeliosTestnetTransaction.data := "";
     HeliosTestnetTransaction.v := 38; HeliosTestnetTransaction.r := 1;
     HeliosTestnetTransaction.s := 1 |}.

(** The same outside world with other validation helpers. *)
Definition with_checks (E : Externals) (bounds : BlockHeader -> Z * Z)
    (ensure : Block -> Block -> result unit) : Externals :=
  {| time_time := time_time;
     header_hash := header_hash;
     send_hash := send_hash;
     receive_hash := receive_hash;
     compute_gas_limit_bounds := bounds;
     ensure_imported_block_unchanged := ensure;
     decode_transaction := decode_transaction |}.

(** ** Properties *)

(** A fork table as the spec's data model has it: "ordered ascending by
    timestamp". *)
Definition ascending (conf : list (Z * VMClass)) : Prop :=
  StronglySorted (fun a b => a.1 <= b.1) conf.

Section Properties.
Context `{Externals}.

(** *** The fork table *)

Lemma validate_uint256_ok (t : Z) :
  0 <= t <= UINT_256_MAX -> validate_uint256 t = Ok tt.
Proof.
  intros [Hlo Hhi]. unfold validate_uint256.
  destruct (Z.ltb_spec t 0); [lia|].
  destruct (Z.gtb_spec t UINT_256_MAX); [lia|reflexivity].
Qed.

(** The scan stops at the first entry, in the order scanned, that is active at
    [t]; every entry before it starts later than [t]. *)
Lemma scan_vm_configuration_Ok (t : Z) (l : list (Z * VMClass)) (vm : VMClass) :
  scan_vm_configuration t l = Ok vm ->
  exists ts l1 l2, l = l1 ++ (ts, vm) :: l2 /\ ts <= t /\ Forall (fun e => t < e.1) l1.
Proof.
  induction l as [|[ts' vm'] l IH]; simpl; [discriminate|].
  destruct (Z.geb_spec t ts') as [Hge|Hlt].
  - intros [= <-]. exists ts', [], l. repeat split; [lia|constructor].
  - intros Hscan. destruct (IH Hscan) as (ts & l1 & l2 & -> & Hts & Hl1).
    exists ts, ((ts', vm') :: l1), l2. repeat split; [assumption|].
    constructor; [simpl; lia|assumption].
Qed.

Lemma scan_vm_configuration_Raise (t : Z) (l : list (Z * VMClass)) (e : Exc) :
  scan_vm_configuration t l = Raise e ->
  e = VMNotFound /\ Forall (fun en => t < en.1) l.
Proof.
  induction l as [|[ts' vm'] l IH]; simpl.
  - intros [= <-]. split; [reflexivity|constructor].
  - destruct (Z.geb_spec t ts') as [Hge|Hlt]; [discriminate|].
    intros Hscan. destruct (IH Hscan) as [-> Hl]. split; [reflexivity|].
    constructor; [simpl; lia|assumption].
Qed.

(** C3.  On a fork table in ascending order of activation timestamp and a
    timestamp [t] in the 256-bit range, the resolver returns the ruleset of an
    entry whose activation timestamp is the greatest one not above [t]; when
    every activation timestamp is above [t] (the empty table included) it
    raises [VMNotFound]. *)
Theorem get_vm_class_greatest_activation (conf : list (Z * VMClass)) (t : Z) :
  0 <= t <= UINT_256_MAX ->
  ascending conf ->
  match get_vm_class_for_block_timestamp (Some conf) (Some t) with
  | Ok vm =>
      exists ts, In (ts, vm) conf /\ ts <= t /\
        forall ts' vm', In (ts', vm') conf -> ts' <= t -> ts' <= ts
  | Raise e =>
      e = VMNotFound /\ forall ts' vm', In (ts', vm') conf -> t < ts'
  end.
Proof.
  intros Ht Hsorted. unfold get_vm_class_for_block_timestamp.
  rewrite (validate_uint256_ok t Ht). simpl.
  destruct (scan_vm_configuration t (rev conf)) as [vm|e] eqn:Hscan.
  - apply scan_vm_configuration_Ok in Hscan as (ts & l1 & l2 & Hrev & Hts & Hl1).
    assert (Hconf : conf = rev l2 ++ (ts, vm) :: rev l1).
    { rewrite <- (rev_involutive conf), Hrev, rev_app_distr. simpl.
      rewrite <- app_assoc. reflexivity. }
    exists ts. split; [|split; [assumption|]].
    + rewrite Hconf. apply in_or_app. right. left. reflexivity.
    + intros ts' vm' Hin Hle. rewrite Hconf in Hin, Hsorted.
      apply in_app_or in Hin as [Hin|[Heq|Hin]].
      * apply (StronglySorted_app_1_elem_of _ _ _ (ts', vm') (ts, vm) Hsorted).
        -- apply list_elem_of_In. assumption.
        -- apply list_elem_of_In. left. reflexivity.
      * injection Heq as <- _. lia.
      * apply in_rev in Hin. rewrite Forall_forall in Hl1.
        specialize (Hl1 (ts', vm')). rewrite list_elem_of_In in Hl1.
        specialize (Hl1 Hin). simpl in Hl1. lia.
  - apply scan_vm_configuration_Raise in Hscan as [-> Hall]. split; [reflexivity|].
    intros ts' vm' Hin. apply in_rev in Hin. rewrite Forall_forall in Hall.
    specialize (Hall (ts', vm')). rewrite list_elem_of_In in Hall. exact (Hall Hin).
Qed.

(** Without the order the scan still returns the active entry listed last,
    which need not be the one activated last. *)
Lemma get_vm_class_last_listed (conf : list (Z * VMClass)) (t : Z) (vm : VMClass) :
  get_vm_class_for_block_timestamp (Some conf) (Some t) = Ok vm ->
  exists ts l1 l2, conf = l1 ++ (ts, vm) :: l2 /\ ts <= t /\ Forall (fun e => t < e.1) l2.
Proof.
  unfold get_vm_class_for_block_timestamp.
  destruct (validate_uint256 t); simpl; [|discriminate].
  intros Hscan. apply scan_vm_configuration_Ok in Hscan as (ts & l1 & l2 & Hrev & Hts & Hl1).
  exists ts, (rev l2), (rev l1). split; [|split; [assumption|]].
  - rewrite <- (rev_involutive conf), Hrev, rev_app_distr. simpl.
    rewrite <- app_assoc. reflexivity.
  - apply Forall_forall. intros e He. rewrite Forall_forall in Hl1.
    apply Hl1. apply list_elem_of_In, in_rev, list_elem_of_In. exact He.
Qed.

Lemma get_vm_class_in_configuration (conf : list (Z * VMClass)) (t : option Z) (cls : VMClass) :
  get_vm_class_for_block_timestamp (Some conf) t = Ok cls ->
  exists ts, In (ts, cls) conf.
Proof.
  unfold get_vm_class_for_block_timestamp.
  destruct (validate_uint256 _); simpl; [|discriminate].
  intros Hscan. apply scan_vm_configuration_Ok in Hscan as (ts & l1 & l2 & Hrev & _ & _).
  exists ts. apply in_rev. rewrite Hrev. apply in_or_app. right. left. reflexivity.
Qed.

(** *** Importing a block *)

(** C1, as the code has it.  A block whose number is not the tip's is never
    imported: the call raises and leaves the chain (tip header, queue block
    and database) as it was.  The exception is [ValidationError] when the
    block is a genesis block or passes the ruleset's time check; the time
    check comes first, so a block that is not a genesis block and fails it
    gets [NotEnoughTimeBetweenBlocks]. *)
Theorem import_block_number_mismatch (block : Block) (perform_validation : bool) (c : Chain) :
  BaseBlock.number block <> block_number (header c) ->
  exists e,
    import_block block perform_validation c = (Raise e, c) /\
    (BaseBlock.is_genesis block = true -> e = ValidationError) /\
    (forall vm,
        get_vm c None = Ok vm ->
        vm_check_time_since_parent_block (vm_class vm) (chaindb c) (vm_header vm) block
          = Ok true ->
        e = ValidationError) /\
    (forall vm,
        BaseBlock.is_genesis block = false ->
        get_vm c None = Ok vm ->
        vm_check_time_since_parent_block (vm_class vm) (chaindb c) (vm_header vm) block
          = Ok false ->
        e = NotEnoughTimeBetweenBlocks).
Proof.
  intros Hne. apply Z.eqb_neq in Hne.
  unfold import_block, mbind, reads, raise, mret.
  destruct (BaseBlock.is_genesis block) eqn:Hgen; simpl.
  - rewrite Hne. simpl. exists ValidationError. repeat split; congruence.
  - destruct (get_vm c None) as [vm|e] eqn:Hvm; simpl.
    + destruct (vm_check_time_since_parent_block _ _ _ _) as [[|]|e] eqn:Hcheck; simpl.
      * rewrite Hne. simpl. exists ValidationError. repeat split; congruence.
      * exists NotEnoughTimeBetweenBlocks. repeat split; congruence.
      * exists e. repeat split; congruence.
    + exists e. repeat split; congruence.
Qed.

Lemma get_vm_set_chaindb (c : Chain) (db : ChainDB) (hd : option BlockHeader) :
  get_vm (set_chaindb db c) hd = get_vm c hd.
Proof. reflexivity. Qed.

(** C2.  When the rulesets of the table number a child header after its
    parent, a successful import leaves the returned block as the persisted
    canonical head, a tip header that is its child, and no queue block. *)
Theorem import_block_success (block imported : Block) (perform_validation : bool)
    (c c' : Chain) (conf : list (Z * VMClass)) :
  vm_configuration c = Some conf ->
  (forall ts cls, In (ts, cls) conf -> numbers_children cls) ->
  import_block block perform_validation c = (Ok imported, c') ->
  db_canonical_head (chaindb c') = Some (block_hash imported) /\
  get_canonical_head c' = Ok (BaseBlock.header imported) /\
  block_number (header c') = BaseBlock.number imported + 1 /\
  parent_hash (header c') = block_hash imported /\
  queue_block c' = None.
Proof.
  intros Hconf Hrules.
  unfold import_block, mbind, reads, raise, mret, assign.
  destruct (if negb (BaseBlock.is_genesis block) then _ else _) as [[[]|e0] c0] eqn:Htime;
    [|discriminate].
  assert (c0 = c) as ->.
  { destruct (negb (BaseBlock.is_genesis block)); [|congruence].
    destruct (rbind _ _) as [[|]|]; simpl in Htime; congruence. }
  clear Htime.
  destruct (negb (BaseBlock.number block =? block_number (header c))); [discriminate|].
  destruct (get_vm c (Some (BaseBlock.header block))) as [vm|e1]; [|discriminate].
  destruct (vm_import_block _ _ _ _) as [[imp|e2] db1]; [|discriminate].
  rewrite get_vm_set_chaindb.
  destruct (get_vm c None) as [tip_vm|e3]; [|discriminate].
  destruct (if (if isinstance _ _ then false else perform_validation) then _ else _)
    as [[[]|e4] c4] eqn:Hval; [|discriminate].
  assert (c4 = set_chaindb db1 c) as ->.
  { destruct (if isinstance _ _ then false else perform_validation); [|congruence].
    destruct (ensure_imported_block_unchanged _ _); congruence. }
  clear Hval. simpl.
  unfold get_canonical_head, db_get_canonical_head, db_get_block_header_by_hash. simpl.
  rewrite lookup_insert_eq. simpl.
  destruct (create_header_from_parent _ _ _) as [new_header|e5] eqn:Hcreate; [|discriminate].
  intros [= <- <-]. simpl. rewrite lookup_insert_eq.
  unfold create_header_from_parent in Hcreate. simpl in Hcreate. rewrite Hconf in Hcreate.
  destruct (get_vm_class_for_block_timestamp (Some conf) None) as [cls|e6] eqn:Hcls;
    [|discriminate].
  simpl in Hcreate.
  apply get_vm_class_in_configuration in Hcls as [ts Hin].
  destruct (Hrules ts cls Hin _ _ _ Hcreate) as [Hnum Hparent].
  repeat split; assumption.
Qed.

(** C10.  A block of the tip ruleset's queue block class is imported without
    [ensure_imported_block_unchanged] and without [validate_block], although
    validation was asked for: the call does what it does with
    [perform_validation=False], and whatever the two checks would answer
    changes nothing.  Only the class of the block is looked at; the chain's
    own [queue_block] plays no part. *)
Theorem import_block_queue_class_skips_validation (block : Block) (c : Chain) (tip_vm : VM) :
  get_vm c None = Ok tip_vm ->
  isinstance block (get_queue_block_class (vm_class tip_vm)) = true ->
  import_block block true c = import_block block false c /\
  forall bounds ensure,
    import_block (H := with_checks H bounds ensure) block true c = import_block block true c.
Proof.
  intros Hvm Hinst.
  assert (Hskip : forall bounds ensure,
             import_block (H := with_checks H bounds ensure) block true c
             = import_block block false c).
  { intros bounds ensure.
    unfold import_block, mbind, reads, raise, mret, assign.
    change (@get_vm (with_checks H bounds ensure)) with (@get_vm H).
    destruct (if negb (BaseBlock.is_genesis block) then _ else _) as [[[]|e0] c0] eqn:Hfirst;
      [|reflexivity].
    assert (c0 = c) as ->.
    { destruct (negb (BaseBlock.is_genesis block)); [|congruence].
      destruct (rbind _ _) as [[|]|]; simpl in Hfirst; congruence. }
    clear Hfirst.
    destruct (negb (BaseBlock.number block =? block_number (header c))); [reflexivity|].
    destruct (get_vm c (Some (BaseBlock.header block))) as [vm|e1]; [|reflexivity].
    destruct (vm_import_block _ _ _ _) as [[imp|e2] db1]; [|reflexivity].
    rewrite get_vm_set_chaindb, Hvm, Hinst. reflexivity. }
  split.
  - rewrite <- (Hskip compute_gas_limit_bounds ensure_imported_block_unchanged).
    destruct H. reflexivity.
  - intros bounds ensure. rewrite Hskip.
    rewrite <- (Hskip compute_gas_limit_bounds ensure_imported_block_unchanged).
    destruct H. reflexivity.
Qed.

(** *** Staging transactions *)

Lemma count_transaction_contains (b : Block) (tx : BaseTransaction) :
  contains_transaction b tx = negb (Nat.eqb (count_transaction b tx) 0).
Proof.
  unfold contains_transaction, count_transaction.
  induction (BaseBlock.transactions b) as [|t l IH]; simpl; [reflexivity|].
  destruct (String.eqb (send_hash t) (send_hash tx)); simpl; [reflexivity|exact IH].
Qed.

Lemma count_transaction_add (b : Block) (tx : BaseTransaction) :
  count_transaction (add_transaction b tx) tx = S (count_transaction b tx).
Proof.
  unfold count_transaction, add_transaction. simpl.
  rewrite List.filter_app, length_app. simpl.
  rewrite String.eqb_refl. simpl. lia.
Qed.

(** What one call does when it returns: the staged block is a queue block, and
    it gains [tx] unless it holds a transaction of that hash. *)
Lemma add_send_transaction_Ok (tx : BaseTransaction) (c c1 : Chain) :
  add_transaction_to_queue_block (Send tx) c = (Ok tt, c1) ->
  exists qb0,
    staged_block c = Ok qb0 /\
    validate_is_queue_block qb0 = Ok tt /\
    c1 = set_queue_block
           (Some (if contains_transaction qb0 tx then qb0 else add_transaction qb0 tx)) c.
Proof.
  unfold add_transaction_to_queue_block, staged_block, mbind, reads, mret, assign.
  destruct c as [conf nid addr hd [qb|] db]; simpl.
  - destruct (validate_is_queue_block qb) as [[]|e] eqn:Hq; simpl; [|discriminate].
    destruct (contains_transaction qb tx) eqn:Hc; simpl; intros [= <-]; exists qb;
      rewrite Hc; repeat split; assumption || reflexivity.
  - destruct (get_block _) as [b|e]; simpl; [|discriminate].
    destruct (validate_is_queue_block b) as [[]|e] eqn:Hq; simpl; [|discriminate].
    destruct (contains_transaction b tx) eqn:Hc; simpl; intros [= <-]; exists b;
      rewrite Hc; repeat split; assumption || reflexivity.
Qed.

(** Once [tx] is staged, staging it again returns and changes nothing. *)
Lemma add_send_transaction_staged (tx : BaseTransaction) (c : Chain) (qb : Block) :
  queue_block c = Some qb ->
  validate_is_queue_block qb = Ok tt ->
  contains_transaction qb tx = true ->
  add_transaction_to_queue_block (Send tx) c = (Ok tt, c).
Proof.
  intros Hqb Hq Hin.
  unfold add_transaction_to_queue_block, mbind, reads, mret, assign.
  rewrite Hqb. simpl. rewrite Hq. simpl. rewrite Hin. reflexivity.
Qed.

(** The guard of the method: on a queue block that is not of a queue block
    class every call raises, and the chain stays as it is. *)
Lemma add_transaction_not_staging (transaction : AnyTransaction) (c : Chain) (qb : Block)
    (e : Exc) :
  queue_block c = Some qb ->
  validate_is_queue_block qb = Raise e ->
  add_transaction_to_queue_block transaction c = (Raise e, c).
Proof.
  intros Hqb Hq.
  unfold add_transaction_to_queue_block, mbind, reads, mret.
  rewrite Hqb. simpl. rewrite Hq. reflexivity.
Qed.

(** C4.  If staging a send transaction returns, staging it any number of times
    returns and leaves the chain that one call leaves: a repeated call changes
    nothing and raises nothing.  The queue block then holds [tx], in one copy
    when the block staged before the calls held at most one. *)
Theorem add_send_transaction_idempotent (tx : BaseTransaction) (c c1 : Chain) :
  add_transaction_to_queue_block (Send tx) c = (Ok tt, c1) ->
  (forall qb0, staged_block c = Ok qb0 -> (count_transaction qb0 tx <= 1)%nat) ->
  add_transaction_to_queue_block (Send tx) c1 = (Ok tt, c1) /\
  (forall n, add_transactions_to_queue_block (inr (repeat (Send tx) (S n))) c = (Ok tt, c1)) /\
  exists qb1, queue_block c1 = Some qb1 /\ count_transaction qb1 tx = 1%nat.
Proof.
  intros Hadd Hcount.
  destruct (add_send_transaction_Ok tx c c1 Hadd) as (qb0 & Hstaged & Hq & Hc1).
  specialize (Hcount qb0 Hstaged).
  set (qb1 := if contains_transaction qb0 tx then qb0 else add_transaction qb0 tx) in Hc1.
  assert (Hqb1 : queue_block c1 = Some qb1) by (rewrite Hc1; reflexivity).
  assert (Hq1 : validate_is_queue_block qb1 = Ok tt).
  { unfold qb1. destruct (contains_transaction qb0 tx); [assumption|].
    unfold validate_is_queue_block, add_transaction in *. simpl. assumption. }
  assert (Hone : count_transaction qb1 tx = 1%nat).
  { unfold qb1. pose proof (count_transaction_contains qb0 tx) as Hc.
    destruct (contains_transaction qb0 tx).
    - destruct (count_transaction qb0 tx) as [|[|k]]; simpl in Hc; [discriminate|reflexivity|lia].
    - rewrite count_transaction_add.
      destruct (count_transaction qb0 tx); [reflexivity|discriminate]. }
  assert (Hin1 : contains_transaction qb1 tx = true).
  { rewrite count_transaction_contains, Hone. reflexivity. }
  assert (Hagain : add_transaction_to_queue_block (Send tx) c1 = (Ok tt, c1))
    by exact (add_send_transaction_staged tx c1 qb1 Hqb1 Hq1 Hin1).
  split; [exact Hagain|]. split; [|exists qb1; split; assumption].
  intros n. simpl. unfold mbind at 1. rewrite Hadd.
  induction n as [|n IH]; simpl; [reflexivity|].
  unfold mbind at 1. rewrite Hagain. exact IH.
Qed.

(** *** Building a child header *)

(** C5, as the code has it.  [create_header_from_parent] passes no timestamp
    to the resolver, so the ruleset is the one active at the clock reading of
    the call: it builds the child of every parent header, whatever the
    parent's own timestamp. *)
Theorem create_header_from_parent_by_clock (c : Chain) (cls : VMClass) :
  get_vm_class_for_block_timestamp (vm_configuration c) (Some time_time) = Ok cls ->
  forall parent_header header_params,
    create_header_from_parent c parent_header header_params
    = vm_create_header_from_parent cls parent_header header_params.
Proof.
  intros Hcls parent_header header_params. unfold create_header_from_parent.
  change (get_vm_class_for_block_timestamp (vm_configuration c) None)
    with (get_vm_class_for_block_timestamp (vm_configuration c) (Some time_time)).
  rewrite Hcls. reflexivity.
Qed.

(** *** The gas limit *)

(** C6.  With the parent header in the database and [(low, high)] the bounds
    computed from it, [validate_gaslimit] raises [ValidationError] exactly
    when the header's gas limit is below [low] or above [high], and returns
    otherwise; on a window that is not empty a gas limit equal to either bound
    is accepted. *)
Theorem validate_gaslimit_window (c : Chain) (hd parent : BlockHeader) (low high : Z) :
  get_block_header_by_hash c (parent_hash hd) = Ok parent ->
  compute_gas_limit_bounds parent = (low, high) ->
  (validate_gaslimit c hd = Raise ValidationError <-> gas_limit hd < low \/ gas_limit hd > high) /\
  (validate_gaslimit c hd = Ok tt <-> low <= gas_limit hd <= high) /\
  (low <= high -> gas_limit hd = low \/ gas_limit hd = high -> validate_gaslimit c hd = Ok tt).
Proof.
  intros Hparent Hbounds. unfold validate_gaslimit. rewrite Hparent. simpl. rewrite Hbounds.
  destruct (Z.ltb_spec (gas_limit hd) low) as [Hlow|Hlow];
    [|destruct (Z.gtb_spec (gas_limit hd) high) as [Hhigh|Hhigh]].
  - repeat split; intros; try reflexivity; try discriminate; lia.
  - repeat split; intros; try reflexivity; try discriminate; lia.
  - repeat split; intros; try reflexivity; try discriminate; lia.
Qed.

(** C7, as the code has it.  When the parent hash names no stored header,
    [validate_gaslimit] lets the exception of the lookup through:
    [HeaderNotFound] for a 32-byte hash, and the [ValidationError] of
    [validate_word] for a hash of another length. *)
Theorem validate_gaslimit_parent_missing (c : Chain) (hd : BlockHeader) :
  db_headers (chaindb c) !! parent_hash hd = None ->
  validate_gaslimit c hd
  = Raise (if Nat.eqb (String.length (parent_hash hd)) 32 then HeaderNotFound
           else ValidationError).
Proof.
  intros Hmiss.
  unfold validate_gaslimit, get_block_header_by_hash, validate_word,
    db_get_block_header_by_hash.
  destruct (Nat.eqb (String.length (parent_hash hd)) 32); simpl; [|reflexivity].
  rewrite Hmiss. reflexivity.
Qed.

(** *** Receivable transactions *)

Lemma resolve_receivable_Ok (c : Chain) (tx_keys : list TransactionKey)
    (txs acc : list AnyTransaction) :
  Forall2 (fun k tx => get_canonical_transaction c (transaction_hash k) = Ok tx) tx_keys txs ->
  resolve_receivable c acc tx_keys = Ok (acc ++ txs).
Proof.
  intros Hall. revert acc.
  induction Hall as [|k tx ks txs Hk _ IH]; intros acc; simpl.
  - rewrite app_nil_r. reflexivity.
  - rewrite Hk. simpl. rewrite IH, <- app_assoc. reflexivity.
Qed.

Lemma resolve_receivable_inv (c : Chain) (tx_keys : list TransactionKey)
    (acc res : list AnyTransaction) :
  resolve_receivable c acc tx_keys = Ok res ->
  exists txs, res = acc ++ txs /\
    Forall2 (fun k tx => get_canonical_transaction c (transaction_hash k) = Ok tx) tx_keys txs.
Proof.
  revert acc. induction tx_keys as [|k ks IH]; intros acc; simpl.
  - intros [= <-]. exists []. rewrite app_nil_r. split; [reflexivity|constructor].
  - destruct (get_canonical_transaction c (transaction_hash k)) as [tx|e] eqn:Hk; simpl;
      [|discriminate].
    intros Hres. destruct (IH _ Hres) as (txs & -> & Hall).
    exists (tx :: txs). rewrite <- app_assoc. split; [reflexivity|].
    constructor; assumption.
Qed.

(** C8, as the code has it.  With a ruleset for the tip header: when the index
    has no key for the address the call returns the pair [(False, False)] and
    raises nothing; when it has keys and each resolves through
    [get_canonical_transaction], the call returns the transactions, in the
    order of the keys, with the keys; and a pair of lists is returned in no
    other case. *)
Theorem get_receivable_transactions_result (c : Chain) (address : Address) (vm : VM) :
  get_vm c None = Ok vm ->
  let tx_keys :=
    vm_get_receivable_transactions (vm_class vm) (chaindb c) (vm_header vm) address in
  (tx_keys = [] -> get_receivable_transactions c address = Ok (PyFalse, PyFalse)) /\
  (forall txs,
      tx_keys <> [] ->
      Forall2 (fun k tx => get_canonical_transaction c (transaction_hash k) = Ok tx)
        tx_keys txs ->
      get_receivable_transactions c address = Ok (Obj txs, Obj tx_keys)) /\
  (forall txs keys,
      get_receivable_transactions c address = Ok (Obj txs, Obj keys) ->
      keys = tx_keys /\ tx_keys <> [] /\
      Forall2 (fun k tx => get_canonical_transaction c (transaction_hash k) = Ok tx)
        tx_keys txs).
Proof.
  intros Hvm tx_keys. unfold get_receivable_transactions. rewrite Hvm. simpl.
  fold tx_keys. split; [|split].
  - intros ->. reflexivity.
  - intros txs Hne Hall. destruct tx_keys as [|k ks]; [congruence|].
    change (Nat.eqb (length (k :: ks)) 0) with false. cbv iota.
    rewrite (resolve_receivable_Ok c (k :: ks) txs [] Hall). reflexivity.
  - intros txs keys Hres. destruct tx_keys as [|k ks]; [discriminate|].
    change (Nat.eqb (length (k :: ks)) 0) with false in Hres. cbv iota in Hres.
    destruct (resolve_receivable c [] (k :: ks)) as [res|e] eqn:Hloop; simpl in Hres;
      [|discriminate].
    apply resolve_receivable_inv in Hloop as (txs' & -> & Hall).
    injection Hres as <- <-. split; [reflexivity|]. split; [discriminate|exact Hall].
Qed.

End Properties.

(** *** Signature bounds of a receive transaction *)

Section ReceiveTransactionBounds.
Import HeliosTestnetReceiveTransaction.
Variable super_validate : HeliosTestnetReceiveTransaction.t -> result unit.








End ReceiveTransactionBounds.

(** ** More properties of the fork table *)

Section MoreProperties.
Context `{Externals}.

Lemma validate_uint256_inv (t : Z) (u : unit) :
  validate_uint256 t = Ok u -> 0 <= t <= UINT_256_MAX.
Proof.
  unfold validate_uint256.
  destruct (Z.ltb_spec t 0); [discriminate|].
  destruct (Z.gtb_spec t UINT_256_MAX); [discriminate|]. intros _. lia.
Qed.

Lemma scan_vm_configuration_skip (t : Z) (l r : list (Z * VMClass)) :
  Forall (fun e => t < e.1) l ->
  scan_vm_configuration t (l ++ r) = scan_vm_configuration t r.
Proof.
  induction 1 as [|[ts vm] l Hlt _ IH]; simpl; [reflexivity|].
  simpl in Hlt. destruct (Z.geb_spec t ts); [lia|exact IH].
Qed.

(** X1.  Whatever the order of the table, the resolver returns a ruleset
    exactly when the timestamp is in the 256-bit range and the ruleset is
    that of an entry active at the timestamp after which only entries that
    start later are listed. *)
Theorem resolver_last_listed_active (conf : list (Z * VMClass)) (t : Z) (vm : VMClass) :
  get_vm_class_for_block_timestamp (Some conf) (Some t) = Ok vm <->
  0 <= t <= UINT_256_MAX /\
  exists ts l1 l2,
    conf = l1 ++ (ts, vm) :: l2 /\ ts <= t /\ Forall (fun e => t < e.1) l2.
Proof.
  unfold get_vm_class_for_block_timestamp. split.
  - destruct (validate_uint256 t) as [u|e] eqn:Hvalid; simpl; [|discriminate].
    intros Hscan. split; [exact (validate_uint256_inv t u Hvalid)|].
    apply scan_vm_configuration_Ok in Hscan as (ts & l1 & l2 & Hrev & Hts & Hl1).
    exists ts, (rev l2), (rev l1). split; [|split; [assumption|]].
    + rewrite <- (rev_involutive conf), Hrev, rev_app_distr. simpl.
      rewrite <- app_assoc. reflexivity.
    + apply Forall_forall. intros e He. rewrite Forall_forall in Hl1.
      apply Hl1. apply list_elem_of_In, in_rev, list_elem_of_In. exact He.
  - intros (Ht & ts & l1 & l2 & -> & Hts & Hl2).
    rewrite (validate_uint256_ok t Ht). simpl.
    rewrite rev_app_distr. simpl. rewrite <- app_assoc.
    rewrite scan_vm_configuration_skip.
    + simpl. destruct (Z.geb_spec t ts); [reflexivity|lia].
    + apply Forall_forall. intros e He. rewrite Forall_forall in Hl2.
      apply Hl2. apply list_elem_of_In, in_rev, list_elem_of_In. exact He.
Qed.

(** X2.  Once a timestamp has a ruleset, every later timestamp of the
    256-bit range has one, ordered table or not. *)
Theorem resolver_upward_closed (conf : list (Z * VMClass)) (t1 t2 : Z) (vm1 : VMClass) :
  get_vm_class_for_block_timestamp (Some conf) (Some t1) = Ok vm1 ->
  t1 <= t2 <= UINT_256_MAX ->
  exists vm2, get_vm_class_for_block_timestamp (Some conf) (Some t2) = Ok vm2.
Proof.
  intros Hone [Hle Hmax].
  assert (Ht1 : 0 <= t1 <= UINT_256_MAX).
  { unfold get_vm_class_for_block_timestamp in Hone.
    destruct (validate_uint256 t1) as [u|e] eqn:Hvalid; [|discriminate].
    exact (validate_uint256_inv t1 u Hvalid). }
  apply get_vm_class_last_listed in Hone as (ts & l1 & l2 & Hconf & Hts & _).
  unfold get_vm_class_for_block_timestamp.
  rewrite (validate_uint256_ok t2) by lia. simpl.
  destruct (scan_vm_configuration t2 (rev conf)) as [vm2|e] eqn:Hscan; [exists vm2; reflexivity|].
  apply scan_vm_configuration_Raise in Hscan as [_ Hall].
  rewrite Forall_forall in Hall. specialize (Hall (ts, vm1)). simpl in Hall.
  assert (t2 < ts); [|lia].
  apply Hall. apply list_elem_of_In. apply -> in_rev. rewrite Hconf.
  apply in_or_app. right. left. reflexivity.
Qed.

(** ** More properties of staging *)

Lemma contains_transaction_add (qb : Block) (tx tx' : BaseTransaction) :
  contains_transaction (add_transaction qb tx) tx'
  = contains_transaction qb tx' || String.eqb (send_hash tx) (send_hash tx').
Proof.
  unfold contains_transaction, add_transaction. simpl.
  rewrite existsb_app. simpl. rewrite orb_false_r. reflexivity.
Qed.

Lemma contains_receive_transaction_add (qb : Block) (rtx rtx' : BaseReceiveTransaction) :
  contains_receive_transaction (add_receive_transaction qb rtx) rtx'
  = contains_receive_transaction qb rtx' || String.eqb (receive_hash rtx) (receive_hash rtx').
Proof.
  unfold contains_receive_transaction, add_receive_transaction. simpl.
  rewrite existsb_app. simpl. rewrite orb_false_r. reflexivity.
Qed.

Lemma stage_transaction_contains (qb : Block) (t : AnyTransaction) :
  contains_any (stage_transaction qb t) t = true.
Proof.
  destruct t as [tx|rtx]; simpl.
  - destruct (contains_transaction qb tx) eqn:Hin; [exact Hin|].
    rewrite contains_transaction_add, String.eqb_refl. apply orb_true_r.
  - destruct (contains_receive_transaction qb rtx) eqn:Hin; [exact Hin|].
    rewrite contains_receive_transaction_add, String.eqb_refl. apply orb_true_r.
Qed.

Lemma stage_transaction_keeps (qb : Block) (t t' : AnyTransaction) :
  contains_any qb t' = true -> contains_any (stage_transaction qb t) t' = true.
Proof.
  intros Hin. destruct t as [tx|rtx], t' as [tx'|rtx']; simpl in *.
  - destruct (contains_transaction qb tx); [exact Hin|].
    rewrite contains_transaction_add, Hin. reflexivity.
  - destruct (contains_transaction qb tx); exact Hin.
  - destruct (contains_receive_transaction qb rtx); exact Hin.
  - destruct (contains_receive_transaction qb rtx); [exact Hin|].
    rewrite contains_receive_transaction_add, Hin. reflexivity.
Qed.

Lemma stage_transaction_class (qb : Block) (t : AnyTransaction) :
  BaseBlock.class (stage_transaction qb t) = BaseBlock.class qb /\
  BaseBlock.header (stage_transaction qb t) = BaseBlock.header qb.
Proof.
  destruct t as [tx|rtx]; simpl.
  - destruct (contains_transaction qb tx); split; reflexivity.
  - destruct (contains_receive_transaction qb rtx); split; reflexivity.
Qed.

Lemma stage_transaction_appends (qb : Block) (t : AnyTransaction) :
  (exists more,
      BaseBlock.transactions (stage_transaction qb t) = BaseBlock.transactions qb ++ more) /\
  (exists more,
      BaseBlock.receive_transactions (stage_transaction qb t)
      = BaseBlock.receive_transactions qb ++ more).
Proof.
  destruct t as [tx|rtx]; simpl.
  - destruct (contains_transaction qb tx); simpl; split;
      (exists []; rewrite app_nil_r; reflexivity) || (eexists; reflexivity).
  - destruct (contains_receive_transaction qb rtx); simpl; split;
      (exists []; rewrite app_nil_r; reflexivity) || (eexists; reflexivity).
Qed.

(** What a call that returns has done, for either kind of transaction. *)
Lemma add_transaction_Ok_inv (t : AnyTransaction) (c c1 : Chain) :
  add_transaction_to_queue_block t c = (Ok tt, c1) ->
  exists qb0,
    staged_block c = Ok qb0 /\
    validate_is_queue_block qb0 = Ok tt /\
    c1 = set_queue_block (Some (stage_transaction qb0 t)) c.
Proof.
  unfold add_transaction_to_queue_block, staged_block, mbind, reads, mret, assign.
  destruct c as [conf nid addr hd [qb|] db]; simpl.
  - destruct (validate_is_queue_block qb) as [[]|e] eqn:Hq; simpl; [|discriminate].
    destruct t as [tx|rtx]; simpl.
    + destruct (contains_transaction qb tx) eqn:Hc; simpl; intros [= <-]; exists qb;
        simpl; rewrite Hc; repeat split; assumption || reflexivity.
    + destruct (contains_receive_transaction qb rtx) eqn:Hc; simpl; intros [= <-]; exists qb;
        simpl; rewrite Hc; repeat split; assumption || reflexivity.
  - destruct (get_block _) as [b|e]; simpl; [|discriminate].
    destruct (validate_is_queue_block b) as [[]|e] eqn:Hq; simpl; [|discriminate].
    destruct t as [tx|rtx]; simpl.
    + destruct (contains_transaction b tx) eqn:Hc; simpl; intros [= <-]; exists b;
        simpl; rewrite Hc; repeat split; assumption || reflexivity.
    + destruct (contains_receive_transaction b rtx) eqn:Hc; simpl; intros [= <-]; exists b;
        simpl; rewrite Hc; repeat split; assumption || reflexivity.
Qed.

Lemma add_transaction_Ok_intro (t : AnyTransaction) (c : Chain) (qb0 : Block) :
  staged_block c = Ok qb0 ->
  validate_is_queue_block qb0 = Ok tt ->
  add_transaction_to_queue_block t c
  = (Ok tt, set_queue_block (Some (stage_transaction qb0 t)) c).
Proof.
  unfold add_transaction_to_queue_block, staged_block, mbind, reads, mret, assign.
  destruct c as [conf nid addr hd [qb|] db]; simpl.
  - intros [= ->] Hq. rewrite Hq. simpl.
    destruct t as [tx|rtx]; simpl.
    + destruct (contains_transaction qb0 tx); reflexivity.
    + destruct (contains_receive_transaction qb0 rtx); reflexivity.
  - intros Hb Hq. rewrite Hb. simpl. rewrite Hq. simpl.
    destruct t as [tx|rtx]; simpl.
    + destruct (contains_transaction qb0 tx); reflexivity.
    + destruct (contains_receive_transaction qb0 rtx); reflexivity.
Qed.

Lemma staged_block_set_queue_block (c : Chain) (qb : Block) :
  staged_block (set_queue_block (Some qb) c) = Ok qb.
Proof. reflexivity. Qed.

Lemma validate_is_queue_block_stage (qb : Block) (t : AnyTransaction) :
  validate_is_queue_block (stage_transaction qb t) = validate_is_queue_block qb.
Proof.
  unfold validate_is_queue_block.
  rewrite (proj1 (stage_transaction_class qb t)). reflexivity.
Qed.

(** What staging a list that is not empty has done when it returns. *)
Lemma add_each_Ok_inv (txs : list AnyTransaction) (c c1 : Chain) :
  txs <> [] ->
  add_each_to_queue_block txs c = (Ok tt, c1) ->
  exists qb0,
    staged_block c = Ok qb0 /\
    validate_is_queue_block qb0 = Ok tt /\
    c1 = set_queue_block (Some (fold_left stage_transaction txs qb0)) c.
Proof.
  revert c. induction txs as [|t rest IH]; intros c Hne; [congruence|].
  simpl. unfold mbind at 1.
  destruct (add_transaction_to_queue_block t c) as [[[]|e] c'] eqn:Hadd; [|discriminate].
  destruct (add_transaction_Ok_inv t c c' Hadd) as (qb0 & Hstaged & Hq & ->).
  destruct rest as [|t' rest'].
  - simpl. unfold mret. intros [= <-]. exists qb0. repeat split; assumption.
  - intros Hrest. apply IH in Hrest as (qb' & Hstaged' & Hq' & ->); [|discriminate].
    rewrite staged_block_set_queue_block in Hstaged'. injection Hstaged' as <-.
    exists qb0. repeat split; assumption.
Qed.

Lemma add_each_Ok_intro (txs : list AnyTransaction) (c : Chain) (qb0 : Block) :
  txs <> [] ->
  staged_block c = Ok qb0 ->
  validate_is_queue_block qb0 = Ok tt ->
  add_each_to_queue_block txs c
  = (Ok tt, set_queue_block (Some (fold_left stage_transaction txs qb0)) c).
Proof.
  revert c qb0. induction txs as [|t rest IH]; intros c qb0 Hne Hstaged Hq; [congruence|].
  simpl. unfold mbind at 1.
  rewrite (add_transaction_Ok_intro t c qb0 Hstaged Hq).
  destruct rest as [|t' rest']; [reflexivity|].
  rewrite (IH (set_queue_block (Some (stage_transaction qb0 t)) c) (stage_transaction qb0 t));
    [reflexivity|discriminate|reflexivity|].
  rewrite validate_is_queue_block_stage. exact Hq.
Qed.

Lemma add_transaction_frame_one (t : AnyTransaction) (c c1 : Chain) (r : result unit) :
  add_transaction_to_queue_block t c = (r, c1) ->
  header c1 = header c /\ chaindb c1 = chaindb c /\
  vm_configuration c1 = vm_configuration c /\ network_id c1 = network_id c /\
  wallet_address c1 = wallet_address c.
Proof.
  unfold add_transaction_to_queue_block, mbind, reads, mret, assign.
  destruct (queue_block c) as [qb|]; simpl.
  - destruct (validate_is_queue_block qb) as [[]|e]; simpl.
    + destruct t as [tx|rtx]; simpl.
      * destruct (contains_transaction qb tx); simpl; intros [= _ <-]; repeat split.
      * destruct (contains_receive_transaction qb rtx); simpl; intros [= _ <-]; repeat split.
    + intros [= _ <-]; repeat split.
  - destruct (get_block c) as [b|e]; simpl.
    + destruct (validate_is_queue_block b) as [[]|e]; simpl.
      * destruct t as [tx|rtx]; simpl.
        -- destruct (contains_transaction b tx); simpl; intros [= _ <-]; repeat split.
        -- destruct (contains_receive_transaction b rtx); simpl; intros [= _ <-]; repeat split.
      * intros [= _ <-]; repeat split.
    + intros [= _ <-]; repeat split.
Qed.

(** X3.  Staging, of one transaction or of a list, returning or raising,
    leaves the tip header, the database and the configuration of the chain
    as they were: only [queue_block] can change. *)
Theorem add_transactions_frame (transactions : AnyTransaction + list AnyTransaction)
    (c c1 : Chain) (r : result unit) :
  add_transactions_to_queue_block transactions c = (r, c1) ->
  header c1 = header c /\ chaindb c1 = chaindb c /\
  vm_configuration c1 = vm_configuration c /\ network_id c1 = network_id c /\
  wallet_address c1 = wallet_address c.
Proof.
  destruct transactions as [t|txs]; simpl; [apply add_transaction_frame_one|].
  revert c. induction txs as [|t rest IH]; intros c; simpl.
  - unfold mret. intros [= _ <-]. repeat split.
  - unfold mbind at 1.
    destruct (add_transaction_to_queue_block t c) as [[[]|e] c'] eqn:Hadd.
    + intros Hrest. apply IH in Hrest as (Hh & Hdb & Hconf & Hnid & Haddr).
      apply add_transaction_frame_one in Hadd as (Hh' & Hdb' & Hconf' & Hnid' & Haddr').
      repeat split; congruence.
    + intros [= _ <-]. exact (add_transaction_frame_one t c c' _ Hadd).
Qed.

(** X4.  When the block staged, or the tip block taken when none is staged,
    is not of a queue block class, every call raises
    [InvalidQueueBlockState]; a tip block taken for the occasion stays in
    [queue_block]. *)
Theorem add_transaction_guard (t : AnyTransaction) (c : Chain) (qb : Block) :
  staged_block c = Ok qb ->
  cls_is_queue (BaseBlock.class qb) = false ->
  add_transaction_to_queue_block t c
  = (Raise InvalidQueueBlockState, set_queue_block (Some qb) c).
Proof.
  unfold add_transaction_to_queue_block, staged_block, validate_is_queue_block,
    mbind, reads, mret, assign.
  destruct c as [conf nid addr hd [qb'|] db]; simpl.
  - intros [= ->] Hcls. rewrite Hcls. reflexivity.
  - intros Hb Hcls. rewrite Hb. simpl. rewrite Hcls. reflexivity.
Qed.

(** X5.  Staging a receive transaction is idempotent as staging a send
    transaction is: once a call has returned, any number of calls returns
    and leaves the chain of the first, whose queue block holds the
    transaction. *)
Theorem add_receive_transaction_idempotent (rtx : BaseReceiveTransaction) (c c1 : Chain) :
  add_transaction_to_queue_block (Receive rtx) c = (Ok tt, c1) ->
  add_transaction_to_queue_block (Receive rtx) c1 = (Ok tt, c1) /\
  (forall n,
      add_transactions_to_queue_block (inr (repeat (Receive rtx) (S n))) c = (Ok tt, c1)) /\
  exists qb1, queue_block c1 = Some qb1 /\ contains_receive_transaction qb1 rtx = true.
Proof.
  intros Hadd.
  destruct (add_transaction_Ok_inv _ c c1 Hadd) as (qb0 & Hstaged & Hq & Hc1).
  set (qb1 := stage_transaction qb0 (Receive rtx)) in Hc1.
  assert (Hin : contains_receive_transaction qb1 rtx = true)
    by exact (stage_transaction_contains qb0 (Receive rtx)).
  assert (Hagain : add_transaction_to_queue_block (Receive rtx) c1 = (Ok tt, c1)).
  { rewrite (add_transaction_Ok_intro (Receive rtx) c1 qb1).
    - rewrite Hc1. simpl. rewrite Hin. reflexivity.
    - rewrite Hc1. reflexivity.
    - unfold qb1. rewrite validate_is_queue_block_stage. exact Hq. }
  split; [exact Hagain|]. split; [|exists qb1; split; [rewrite Hc1; reflexivity|exact Hin]].
  intros n. simpl. unfold mbind at 1. rewrite Hadd.
  induction n as [|n IH]; simpl; [reflexivity|].
  unfold mbind at 1. rewrite Hagain. exact IH.
Qed.

Lemma fold_stage_keeps (txs : list AnyTransaction) (qb : Block) :
  BaseBlock.header (fold_left stage_transaction txs qb) = BaseBlock.header qb /\
  (exists more,
      BaseBlock.transactions (fold_left stage_transaction txs qb)
      = BaseBlock.transactions qb ++ more) /\
  (exists more,
      BaseBlock.receive_transactions (fold_left stage_transaction txs qb)
      = BaseBlock.receive_transactions qb ++ more) /\
  (forall t, contains_any qb t = true ->
             contains_any (fold_left stage_transaction txs qb) t = true) /\
  Forall (fun t => contains_any (fold_left stage_transaction txs qb) t = true) txs.
Proof.
  revert qb. induction txs as [|t rest IH]; intros qb; simpl.
  - repeat split; try (exists []; rewrite app_nil_r; reflexivity); auto.
  - destruct (IH (stage_transaction qb t)) as (Hh & [m1 Ht] & [m2 Hr] & Hkeep & Hall).
    destruct (stage_transaction_appends qb t) as ([m1' Ht'] & [m2' Hr']).
    split; [rewrite Hh; apply stage_transaction_class|].
    split; [exists (m1' ++ m1); rewrite Ht, Ht', app_assoc; reflexivity|].
    split; [exists (m2' ++ m2); rewrite Hr, Hr', app_assoc; reflexivity|].
    split.
    + intros t' Hin. apply Hkeep, stage_transaction_keeps, Hin.
    + constructor; [apply Hkeep, stage_transaction_contains|exact Hall].
Qed.

(** X6.  When staging a list returns, the queue block keeps the header it
    had and what it held, in order and in front, and it holds every
    transaction of the list. *)
Theorem add_transactions_keeps_and_holds (txs : list AnyTransaction) (c c1 : Chain) :
  txs <> [] ->
  add_transactions_to_queue_block (inr txs) c = (Ok tt, c1) ->
  exists qb0 qb1,
    staged_block c = Ok qb0 /\ queue_block c1 = Some qb1 /\
    BaseBlock.header qb1 = BaseBlock.header qb0 /\
    (exists more, BaseBlock.transactions qb1 = BaseBlock.transactions qb0 ++ more) /\
    (exists more,
        BaseBlock.receive_transactions qb1 = BaseBlock.receive_transactions qb0 ++ more) /\
    Forall (fun t => contains_any qb1 t = true) txs.
Proof.
  intros Hne Hadd. simpl in Hadd.
  destruct (add_each_Ok_inv txs c c1 Hne Hadd) as (qb0 & Hstaged & _ & ->).
  exists qb0, (fold_left stage_transaction txs qb0).
  destruct (fold_stage_keeps txs qb0) as (Hh & Ht & Hr & _ & Hall).
  repeat split; assumption.
Qed.

Lemma fold_stage_fresh_sends (txs : list BaseTransaction) (qb : Block) :
  NoDup (map send_hash txs) ->
  Forall (fun tx => contains_transaction qb tx = false) txs ->
  BaseBlock.transactions (fold_left stage_transaction (map Send txs) qb)
  = BaseBlock.transactions qb ++ txs /\
  BaseBlock.receive_transactions (fold_left stage_transaction (map Send txs) qb)
  = BaseBlock.receive_transactions qb.
Proof.
  revert qb. induction txs as [|tx rest IH]; intros qb Hnodup Hfresh; simpl.
  - rewrite app_nil_r. split; reflexivity.
  - apply NoDup_cons in Hnodup as [Hnotin Hnodup].
    apply Forall_cons in Hfresh as [Hfirst Hfresh].
    rewrite Hfirst.
    destruct (IH (add_transaction qb tx) Hnodup) as [Ht Hr].
    + rewrite Forall_forall in *. intros tx' Hin.
      rewrite contains_transaction_add, (Hfresh tx' Hin). simpl.
      apply String.eqb_neq. intros Heq. apply Hnotin. rewrite Heq.
      apply list_elem_of_fmap. exists tx'. split; [reflexivity|exact Hin].
    + rewrite Ht, Hr. simpl. rewrite <- app_assoc. split; reflexivity.
Qed.

(** X7.  Send transactions of pairwise distinct hashes, none of them staged
    yet, are staged by one call on the list in the order of the list,
    behind what the queue block held; the receive list is untouched. *)
Theorem add_fresh_sends_in_order (txs : list BaseTransaction) (c : Chain) (qb0 : Block) :
  txs <> [] ->
  staged_block c = Ok qb0 ->
  validate_is_queue_block qb0 = Ok tt ->
  NoDup (map send_hash txs) ->
  Forall (fun tx => contains_transaction qb0 tx = false) txs ->
  exists c1 qb1,
    add_transactions_to_queue_block (inr (map Send txs)) c = (Ok tt, c1) /\
    queue_block c1 = Some qb1 /\
    BaseBlock.transactions qb1 = BaseBlock.transactions qb0 ++ txs /\
    BaseBlock.receive_transactions qb1 = BaseBlock.receive_transactions qb0.
Proof.
  intros Hne Hstaged Hq Hnodup Hfresh.
  exists (set_queue_block (Some (fold_left stage_transaction (map Send txs) qb0)) c),
    (fold_left stage_transaction (map Send txs) qb0).
  split.
  - simpl. apply add_each_Ok_intro; [|assumption|assumption].
    destruct txs; [congruence|discriminate].
  - split; [reflexivity|]. exact (fold_stage_fresh_sends txs qb0 Hnodup Hfresh).
Qed.

(** X8.  Staging a list in two parts is staging the list: the second part
    is staged on the chain the first leaves, and is not staged at all when
    the first raises. *)
Theorem add_transactions_app (l1 l2 : list AnyTransaction) (c : Chain) :
  add_transactions_to_queue_block (inr (l1 ++ l2)) c
  = (do _ <- add_transactions_to_queue_block (inr l1);
     add_transactions_to_queue_block (inr l2)) c.
Proof.
  simpl. revert c. induction l1 as [|t rest IH]; intros c; simpl.
  - reflexivity.
  - unfold mbind.
    destruct (add_transaction_to_queue_block t c) as [[[]|e] c']; [|reflexivity].
    rewrite IH. reflexivity.
Qed.

(** ** More properties of [import_block] *)

(** The first statement of [import_block] either lets the call go on, on the
    chain as it is, or raises. *)
Lemma import_block_time_check (block : Block) (c : Chain) :
  let first :=
    (if negb (BaseBlock.is_genesis block)
     then
       do enough <- reads (fun c =>
                      let? vm := get_vm c None in
                      vm_check_time_since_parent_block
                        (vm_class vm) (chaindb c) (vm_header vm) block);
       if negb enough then raise NotEnoughTimeBetweenBlocks else mret tt
     else mret tt) c in
  (first = (Ok tt, c) /\
   (BaseBlock.is_genesis block = true \/
    exists gvm, get_vm c None = Ok gvm /\
      vm_check_time_since_parent_block (vm_class gvm) (chaindb c) (vm_header gvm) block
      = Ok true))
  \/ (exists e, first = (Raise e, c)).
Proof.
  unfold mbind, reads, raise, mret.
  destruct (BaseBlock.is_genesis block); simpl; [left; split; [reflexivity|left; reflexivity]|].
  destruct (get_vm c None) as [gvm|e]; simpl; [|right; exists e; reflexivity].
  destruct (vm_check_time_since_parent_block _ _ _ _) as [[|]|e] eqn:Hcheck; simpl.
  - left. split; [reflexivity|]. right. exists gvm. split; [reflexivity|exact Hcheck].
  - right. eexists. reflexivity.
  - right. exists e. reflexivity.
Qed.

(** The run of [import_block] once the ruleset has executed the block. *)
Lemma import_block_after_execution (block imp : Block) (pv : bool) (c : Chain)
    (vm tip_vm : VM) (db1 : ChainDB) :
  (BaseBlock.is_genesis block = true \/
   exists gvm, get_vm c None = Ok gvm /\
     vm_check_time_since_parent_block (vm_class gvm) (chaindb c) (vm_header gvm) block
     = Ok true) ->
  BaseBlock.number block = block_number (header c) ->
  get_vm c (Some (BaseBlock.header block)) = Ok vm ->
  vm_import_block (vm_class vm) (chaindb c) (vm_header vm) block = (Ok imp, db1) ->
  get_vm c None = Ok tip_vm ->
  import_block block pv c
  = match (if (if isinstance block (get_queue_block_class (vm_class tip_vm)) then false
               else pv)
           then let? _ := ensure_imported_block_unchanged imp block in
                validate_block (set_chaindb db1 c) imp
           else Ok tt) with
    | Raise e => (Raise e, set_chaindb db1 c)
    | Ok _ =>
        match create_header_from_parent c (BaseBlock.header imp) [] with
        | Raise e => (Raise e, set_chaindb (db_persist_block db1 imp) c)
        | Ok new_header =>
            (Ok imp,
             set_queue_block None
               (set_header new_header (set_chaindb (db_persist_block db1 imp) c)))
        end
    end.
Proof.
  intros Hfirst Hnum Hvm Himp Htip.
  unfold import_block. unfold mbind at 1.
  destruct (import_block_time_check block c) as [[-> _]|[e He]].
  2:{ exfalso. revert He. unfold mbind, reads, raise, mret.
      destruct (BaseBlock.is_genesis block) eqn:Hgen; simpl; [discriminate|].
      destruct Hfirst as [Hf|(gvm & Hgvm & Hcheck)]; [discriminate|].
      rewrite Hgvm. simpl. rewrite Hcheck. discriminate. }
  unfold mbind, reads, raise, mret, assign.
  rewrite Hnum, Z.eqb_refl. simpl. rewrite Hvm, Himp.
  rewrite get_vm_set_chaindb, Htip.
  destruct (if isinstance _ _ then false else pv).
  - destruct (ensure_imported_block_unchanged imp block) as [[]|e]; simpl; [|reflexivity].
    destruct (validate_block (set_chaindb db1 c) imp) as [[]|e]; simpl; [|reflexivity].
    unfold get_canonical_head, db_get_canonical_head, db_get_block_header_by_hash. simpl.
    rewrite lookup_insert_eq. simpl.
    change (create_header_from_parent _ (BaseBlock.header imp) [])
      with (create_header_from_parent c (BaseBlock.header imp) []).
    destruct (create_header_from_parent c (BaseBlock.header imp) []); reflexivity.
  - simpl.
    unfold get_canonical_head, db_get_canonical_head, db_get_block_header_by_hash. simpl.
    rewrite lookup_insert_eq. simpl.
    change (create_header_from_parent _ (BaseBlock.header imp) [])
      with (create_header_from_parent c (BaseBlock.header imp) []).
    destruct (create_header_from_parent c (BaseBlock.header imp) []); reflexivity.
Qed.

(** What a call that returns has gone through. *)
Lemma import_block_Ok_inv (block imported : Block) (pv : bool) (c c' : Chain) :
  import_block block pv c = (Ok imported, c') ->
  exists vm db1 tip_vm new_header,
    (BaseBlock.is_genesis block = true \/
     exists gvm, get_vm c None = Ok gvm /\
       vm_check_time_since_parent_block (vm_class gvm) (chaindb c) (vm_header gvm) block
       = Ok true) /\
    BaseBlock.number block = block_number (header c) /\
    get_vm c (Some (BaseBlock.header block)) = Ok vm /\
    vm_import_block (vm_class vm) (chaindb c) (vm_header vm) block = (Ok imported, db1) /\
    get_vm c None = Ok tip_vm /\
    (isinstance block (get_queue_block_class (vm_class tip_vm)) = true \/ pv = false \/
     (ensure_imported_block_unchanged imported block = Ok tt /\
      validate_block (set_chaindb db1 c) imported = Ok tt)) /\
    create_header_from_parent c (BaseBlock.header imported) [] = Ok new_header /\
    c' = set_queue_block None
           (set_header new_header (set_chaindb (db_persist_block db1 imported) c)).
Proof.
  intros Hrun.
  assert (Hfirst : BaseBlock.is_genesis block = true \/
            exists gvm, get_vm c None = Ok gvm /\
              vm_check_time_since_parent_block (vm_class gvm) (chaindb c) (vm_header gvm) block
              = Ok true).
  { revert Hrun. unfold import_block. unfold mbind at 1.
    destruct (import_block_time_check block c) as [[-> Hok]|[e ->]];
      [intros _; exact Hok|discriminate]. }
  assert (Hnum : BaseBlock.number block = block_number (header c)).
  { revert Hrun. unfold import_block. unfold mbind at 1.
    destruct (import_block_time_check block c) as [[-> _]|[e ->]]; [|discriminate].
    unfold mbind, reads, raise.
    destruct (Z.eqb_spec (BaseBlock.number block) (block_number (header c)));
      [intros _; assumption|discriminate]. }
  destruct (get_vm c (Some (BaseBlock.header block))) as [vm|e] eqn:Hvm.
  2:{ revert Hrun. unfold import_block. unfold mbind at 1.
      destruct (import_block_time_check block c) as [[-> _]|[e' ->]]; [|discriminate].
      unfold mbind, reads, raise. rewrite Hnum, Z.eqb_refl. simpl. rewrite Hvm.
      discriminate. }
  destruct (vm_import_block (vm_class vm) (chaindb c) (vm_header vm) block)
    as [[imp|e] db1] eqn:Himp.
  2:{ revert Hrun. unfold import_block. unfold mbind at 1.
      destruct (import_block_time_check block c) as [[-> _]|[e' ->]]; [|discriminate].
      unfold mbind, reads, raise. rewrite Hnum, Z.eqb_refl. simpl. rewrite Hvm, Himp.
      discriminate. }
  assert (Htip : exists tip_vm, get_vm c None = Ok tip_vm).
  { destruct (get_vm c None) as [tip_vm|e] eqn:Htip; [exists tip_vm; reflexivity|].
    revert Hrun. unfold import_block. unfold mbind at 1.
    destruct (import_block_time_check block c) as [[-> _]|[e' ->]]; [|discriminate].
    unfold mbind, reads, raise. rewrite Hnum, Z.eqb_refl. simpl. rewrite Hvm, Himp.
    rewrite get_vm_set_chaindb, Htip. discriminate. }
  destruct Htip as [tip_vm Htip].
  rewrite (import_block_after_execution block imp pv c vm tip_vm db1 Hfirst Hnum Hvm Himp
             Htip) in Hrun.
  exists vm, db1, tip_vm.
  destruct (isinstance block (get_queue_block_class (vm_class tip_vm))) eqn:Hinst.
  - destruct (create_header_from_parent c (BaseBlock.header imp) []) as [nh|e] eqn:Hnh;
      [|discriminate].
    injection Hrun as <- <-. exists nh. repeat split; auto.
  - destruct pv.
    + destruct (ensure_imported_block_unchanged imp block) as [[]|e] eqn:Hens; [|discriminate].
      simpl in Hrun.
      destruct (validate_block (set_chaindb db1 c) imp) as [[]|e] eqn:Hval; [|discriminate].
      destruct (create_header_from_parent c (BaseBlock.header imp) []) as [nh|e] eqn:Hnh;
        [|discriminate].
      injection Hrun as <- <-. exists nh. repeat split; auto.
    + destruct (create_header_from_parent c (BaseBlock.header imp) []) as [nh|e] eqn:Hnh;
        [|discriminate].
      injection Hrun as <- <-. exists nh. repeat split; auto.
Qed.

(** X9.  A block is imported only on the tip: when [import_block] returns,
    the number of the block was the tip's, and a block that is not a genesis
    block had passed the time check of the tip's ruleset. *)
Theorem import_block_only_at_tip (block imported : Block) (pv : bool) (c c' : Chain) :
  import_block block pv c = (Ok imported, c') ->
  BaseBlock.number block = block_number (header c) /\
  (BaseBlock.is_genesis block = false ->
   exists gvm, get_vm c None = Ok gvm /\
     vm_check_time_since_parent_block (vm_class gvm) (chaindb c) (vm_header gvm) block
     = Ok true).
Proof.
  intros Hrun.
  destruct (import_block_Ok_inv block imported pv c c' Hrun)
    as (vm & db1 & tip_vm & nh & Hfirst & Hnum & _).
  split; [exact Hnum|]. intros Hgen.
  destruct Hfirst as [Hg|Hcheck]; [congruence|exact Hcheck].
Qed.

(** X10.  With validation asked for, a block that is not of the tip
    ruleset's queue block class is imported only if the executed block
    passed [ensure_imported_block_unchanged] and its gas limit lies within the
    bounds computed from its parent, found in the database the execution
    left. *)
Theorem import_block_validated (block imported : Block) (c c' : Chain) (tip_vm : VM) :
  import_block block true c = (Ok imported, c') ->
  get_vm c None = Ok tip_vm ->
  isinstance block (get_queue_block_class (vm_class tip_vm)) = false ->
  ensure_imported_block_unchanged imported block = Ok tt /\
  exists vm db1 parent,
    get_vm c (Some (BaseBlock.header block)) = Ok vm /\
    vm_import_block (vm_class vm) (chaindb c) (vm_header vm) block = (Ok imported, db1) /\
    db_headers db1 !! parent_hash (BaseBlock.header imported) = Some parent /\
    (compute_gas_limit_bounds parent).1 <= gas_limit (BaseBlock.header imported)
      <= (compute_gas_limit_bounds parent).2.
Proof.
  intros Hrun Htip Hinst.
  destruct (import_block_Ok_inv block imported true c c' Hrun)
    as (vm & db1 & tip_vm' & nh & _ & _ & Hvm & Himp & Htip' & Hval & _).
  rewrite Htip in Htip'. injection Htip' as <-.
  destruct Hval as [Hq|[Hpv|[Hens Hval]]]; [congruence|discriminate|].
  split; [exact Hens|].
  unfold validate_block, validate_gaslimit, get_block_header_by_hash,
    db_get_block_header_by_hash in Hval. simpl in Hval.
  destruct (validate_word _); simpl in Hval; [|discriminate].
  destruct (db_headers db1 !! parent_hash (BaseBlock.header imported)) as [parent|] eqn:Hparent;
    simpl in Hval; [|discriminate].
  exists vm, db1, parent. repeat split; try assumption.
  - destruct (compute_gas_limit_bounds parent) as [low high]. simpl.
    destruct (Z.ltb_spec (gas_limit (BaseBlock.header imported)) low); [discriminate|lia].
  - destruct (compute_gas_limit_bounds parent) as [low high]. simpl.
    destruct (Z.ltb_spec (gas_limit (BaseBlock.header imported)) low); [discriminate|].
    destruct (Z.gtb_spec (gas_limit (BaseBlock.header imported)) high); [discriminate|lia].
Qed.

(** X11.  However [import_block] fails, the tip header and the queue block
    are those of before the call: both are assigned by its last two
    statements only. *)
Theorem import_block_failure_keeps_tip (block : Block) (pv : bool) (c c' : Chain) (e : Exc) :
  import_block block pv c = (Raise e, c') ->
  header c' = header c /\ queue_block c' = queue_block c /\
  vm_configuration c' = vm_configuration c.
Proof.
  unfold import_block. unfold mbind at 1.
  destruct (import_block_time_check block c) as [[-> _]|[e0 ->]];
    [|intros [= _ <-]; repeat split].
  unfold mbind, reads, raise, mret, assign.
  destruct (negb (BaseBlock.number block =? block_number (header c)));
    [intros [= _ <-]; repeat split|].
  simpl.
  destruct (get_vm c (Some (BaseBlock.header block))) as [vm|e1];
    [|intros [= _ <-]; repeat split].
  destruct (vm_import_block _ _ _ _) as [[imp|e2] db1]; [|intros [= _ <-]; repeat split].
  rewrite get_vm_set_chaindb.
  destruct (get_vm c None) as [tip_vm|e3]; [|intros [= _ <-]; repeat split].
  destruct (if isinstance _ _ then false else pv).
  - destruct (ensure_imported_block_unchanged imp block) as [[]|e4]; simpl;
      [|intros [= _ <-]; repeat split].
    destruct (validate_block _ imp) as [[]|e5]; simpl; [|intros [= _ <-]; repeat split].
    destruct (rbind _ _) as [nh|e6]; [discriminate|intros [= _ <-]; repeat split].
  - simpl. destruct (rbind _ _) as [nh|e6]; [discriminate|intros [= _ <-]; repeat split].
Qed.

(** X12.  With validation asked for, a block that is not of the queue block
    class and fails [ensure_imported_block_unchanged] or [validate_block] is
    not persisted: the call raises the exception of the check and the
    database is the one the ruleset's execution left. *)
Theorem import_block_rejected_not_persisted (block imp : Block) (c : Chain)
    (vm tip_vm : VM) (db1 : ChainDB) (e : Exc) :
  (BaseBlock.is_genesis block = true \/
   exists gvm, get_vm c None = Ok gvm /\
     vm_check_time_since_parent_block (vm_class gvm) (chaindb c) (vm_header gvm) block
     = Ok true) ->
  BaseBlock.number block = block_number (header c) ->
  get_vm c (Some (BaseBlock.header block)) = Ok vm ->
  vm_import_block (vm_class vm) (chaindb c) (vm_header vm) block = (Ok imp, db1) ->
  get_vm c None = Ok tip_vm ->
  isinstance block (get_queue_block_class (vm_class tip_vm)) = false ->
  (ensure_imported_block_unchanged imp block = Raise e \/
   (ensure_imported_block_unchanged imp block = Ok tt /\
    validate_block (set_chaindb db1 c) imp = Raise e)) ->
  import_block block true c = (Raise e, set_chaindb db1 c).
Proof.
  intros Hfirst Hnum Hvm Himp Htip Hinst Hcheck.
  rewrite (import_block_after_execution block imp true c vm tip_vm db1 Hfirst Hnum Hvm Himp
             Htip).
  rewrite Hinst. destruct Hcheck as [->|[-> Hval]]; simpl; [reflexivity|].
  rewrite Hval. reflexivity.
Qed.

(** X13.  The tip is rebuilt after the block is persisted: when the block
    has gone through execution and validation and the clock has no ruleset,
    the call raises with the executed block already stored as canonical
    head, and the tip header and queue block of before. *)
Theorem import_block_persisted_without_tip (block imp : Block) (pv : bool) (c : Chain)
    (vm tip_vm : VM) (db1 : ChainDB) (e : Exc) :
  (BaseBlock.is_genesis block = true \/
   exists gvm, get_vm c None = Ok gvm /\
     vm_check_time_since_parent_block (vm_class gvm) (chaindb c) (vm_header gvm) block
     = Ok true) ->
  BaseBlock.number block = block_number (header c) ->
  get_vm c (Some (BaseBlock.header block)) = Ok vm ->
  vm_import_block (vm_class vm) (chaindb c) (vm_header vm) block = (Ok imp, db1) ->
  get_vm c None = Ok tip_vm ->
  (isinstance block (get_queue_block_class (vm_class tip_vm)) = true \/ pv = false \/
   (ensure_imported_block_unchanged imp block = Ok tt /\
    validate_block (set_chaindb db1 c) imp = Ok tt)) ->
  get_vm_class_for_block_timestamp (vm_configuration c) None = Raise e ->
  exists c',
    import_block block pv c = (Raise e, c') /\
    get_canonical_head c' = Ok (BaseBlock.header imp) /\
    header c' = header c /\ queue_block c' = queue_block c.
Proof.
  intros Hfirst Hnum Hvm Himp Htip Hval Hclock.
  exists (set_chaindb (db_persist_block db1 imp) c).
  rewrite (import_block_after_execution block imp pv c vm tip_vm db1 Hfirst Hnum Hvm Himp
             Htip).
  assert (Hpass : (if (if isinstance block (get_queue_block_class (vm_class tip_vm))
                       then false else pv)
                   then let? _ := ensure_imported_block_unchanged imp block in
                        validate_block (set_chaindb db1 c) imp
                   else Ok tt) = Ok tt).
  { destruct Hval as [->|[->|[-> Hv]]]; [reflexivity| |].
    - destruct (isinstance _ _); reflexivity.
    - destruct (isinstance _ _); destruct pv; try reflexivity; exact Hv. }
  rewrite Hpass. unfold create_header_from_parent. rewrite Hclock. simpl.
  repeat split.
  unfold get_canonical_head, db_get_canonical_head, db_get_block_header_by_hash. simpl.
  rewrite lookup_insert_eq. reflexivity.
Qed.

Lemma import_block_mismatch_raises (block : Block) (pv : bool) (c : Chain) :
  BaseBlock.number block <> block_number (header c) ->
  exists e, import_block block pv c = (Raise e, c).
Proof.
  intros Hne. apply Z.eqb_neq in Hne.
  unfold import_block. unfold mbind at 1.
  destruct (import_block_time_check block c) as [[-> _]|[e ->]]; [|exists e; reflexivity].
  unfold mbind, reads, raise. rewrite Hne. simpl. eexists. reflexivity.
Qed.

(** X14.  Block numbers only grow: after an import on a chain whose
    rulesets number a child after its parent, no block numbered as the
    imported one or lower is imported next; the attempt raises and changes
    nothing. *)
Theorem import_block_numbers_grow (block imported : Block) (pv : bool) (c c' : Chain)
    (conf : list (Z * VMClass)) :
  vm_configuration c = Some conf ->
  (forall ts cls, In (ts, cls) conf -> numbers_children cls) ->
  import_block block pv c = (Ok imported, c') ->
  forall block' pv',
    BaseBlock.number block' <= BaseBlock.number imported ->
    exists e, import_block block' pv' c' = (Raise e, c').
Proof.
  intros Hconf Hrules Hrun block' pv' Hle.
  destruct (import_block_Ok_inv block imported pv c c' Hrun)
    as (vm & db1 & tip_vm & nh & _ & _ & _ & _ & _ & _ & Hnh & ->).
  apply import_block_mismatch_raises. simpl.
  unfold create_header_from_parent in Hnh. rewrite Hconf in Hnh.
  destruct (get_vm_class_for_block_timestamp (Some conf) None) as [cls|e] eqn:Hcls;
    [|discriminate].
  simpl in Hnh. apply get_vm_class_in_configuration in Hcls as [ts Hin].
  destruct (Hrules ts cls Hin _ _ _ Hnh) as [Hnumber _].
  unfold BaseBlock.number in *. lia.
Qed.

(** X15.  [import_current_queue_block] raises [AttributeError] on a chain
    without queue block, and a call that returns leaves such a chain: a
    second call right after the first always fails, and changes nothing. *)
Theorem import_current_queue_block_once (c : Chain) :
  (queue_block c = None -> import_current_queue_block c = (Raise AttributeError, c)) /\
  (forall c', import_current_queue_block c = (Ok tt, c') ->
              import_current_queue_block c' = (Raise AttributeError, c')).
Proof.
  unfold import_current_queue_block. split.
  - intros ->. reflexivity.
  - intros c'. destruct (queue_block c) as [block|]; [|discriminate].
    unfold mbind at 1.
    destruct (import_block block true c) as [[imported|e] c1] eqn:Hrun; [|discriminate].
    unfold mret. intros [= <-].
    destruct (import_block_Ok_inv block imported true c c1 Hrun)
      as (vm & db1 & tip_vm & nh & _ & _ & _ & _ & _ & _ & _ & ->).
    reflexivity.
Qed.

(** ** Lookups *)

Lemma get_canonical_transaction_hash_aux (c : Chain) (h : Hash32) (t : AnyTransaction) :
  get_canonical_transaction c h = Ok t -> any_hash t = h.
Proof.
  unfold get_canonical_transaction.
  destruct (db_get_transaction_index (chaindb c) h) as [[[bh index] is_receive]|e];
    simpl; [|discriminate].
  destruct (get_block_header_by_hash c bh) as [block_header|e]; simpl; [|discriminate].
  destruct (get_vm_class_for_block_timestamp _ _) as [cls|e]; simpl; [|discriminate].
  destruct (if negb is_receive then _ else _) as [t'|e]; simpl; [|discriminate].
  destruct (String.eqb_spec (any_hash t') h) as [Heq|]; [|discriminate].
  intros [= <-]. exact Heq.
Qed.

(** X16.  [get_canonical_transaction] returns only a transaction whose hash
    is the one asked for: the one that the lookup chosen by the flag of the
    index entry yields at the entry's block hash and index, handed the send
    transaction class of the ruleset of the block's timestamp, the header of
    the block being stored.  A hash the index does not hold, and an entry
    under which a transaction of another hash is found, raise
    [TransactionNotFound]. *)
Theorem get_canonical_transaction_hash (c : Chain) (h : Hash32) :
  (forall t,
      get_canonical_transaction c h = Ok t ->
      any_hash t = h /\
      exists bh index is_receive block_header VM,
        db_get_transaction_index (chaindb c) h = Ok (bh, index, is_receive) /\
        get_block_header_by_hash c bh = Ok block_header /\
        get_vm_class_for_block_timestamp (vm_configuration c)
          (Some (timestamp block_header)) = Ok VM /\
        (if is_receive
         then db_get_receive_transaction_by_index_and_block_hash (chaindb c) bh index
                (get_transaction_class VM)
         else db_get_transaction_by_index_and_block_hash (chaindb c) bh index
                (get_transaction_class VM)) = Ok t) /\
  (db_transaction_index (chaindb c) !! h = None ->
   get_canonical_transaction c h = Raise TransactionNotFound) /\
  (forall bh index is_receive block_header VM found,
      db_get_transaction_index (chaindb c) h = Ok (bh, index, is_receive) ->
      get_block_header_by_hash c bh = Ok block_header ->
      get_vm_class_for_block_timestamp (vm_configuration c)
        (Some (timestamp block_header)) = Ok VM ->
      (if is_receive
       then db_get_receive_transaction_by_index_and_block_hash (chaindb c) bh index
              (get_transaction_class VM)
       else db_get_transaction_by_index_and_block_hash (chaindb c) bh index
              (get_transaction_class VM)) = Ok found ->
      any_hash found <> h ->
      get_canonical_transaction c h = Raise TransactionNotFound).
Proof.
  split; [|split].
  - intros t. unfold get_canonical_transaction.
    destruct (db_get_transaction_index (chaindb c) h) as [[[bh index] is_receive]|e];
      simpl; [|discriminate].
    destruct (get_block_header_by_hash c bh) as [block_header|e] eqn:Hhd; simpl;
      [|discriminate].
    destruct (get_vm_class_for_block_timestamp _ _) as [cls|e] eqn:Hcls; simpl; [|discriminate].
    destruct (if negb is_receive then _ else _) as [t'|e] eqn:Hget; simpl; [|discriminate].
    destruct (String.eqb_spec (any_hash t') h) as [Heq|]; [|discriminate].
    intros [= <-]. split; [exact Heq|].
    exists bh, index, is_receive, block_header, cls.
    repeat split; try assumption. destruct is_receive; exact Hget.
  - intros Hmiss. unfold get_canonical_transaction, db_get_transaction_index.
    rewrite Hmiss. reflexivity.
  - intros bh index is_receive block_header VM found Hidx Hhd Hcls Hget Hneq.
    unfold get_canonical_transaction. rewrite Hidx. simpl. rewrite Hhd. simpl.
    rewrite Hcls. simpl.
    assert (Hsel : (if negb is_receive
                    then db_get_transaction_by_index_and_block_hash (chaindb c) bh index
                           (get_transaction_class VM)
                    else db_get_receive_transaction_by_index_and_block_hash (chaindb c) bh
                           index (get_transaction_class VM)) = Ok found)
      by (destruct is_receive; exact Hget).
    rewrite Hsel. simpl.
    destruct (String.eqb_spec (any_hash found) h) as [Heq|_]; [contradiction|reflexivity].
Qed.

(** X17.  [get_receivable_transactions] returns [(False, False)] or two lists
    that are not empty, never one of each; of the lists, the transaction at
    each position has the hash its key names, so they are of one length. *)
Theorem get_receivable_transactions_shape (c : Chain) (address : Address)
    (a : FalseOr (list AnyTransaction)) (b : FalseOr (list TransactionKey)) :
  get_receivable_transactions c address = Ok (a, b) ->
  (a = PyFalse /\ b = PyFalse) \/
  exists txs keys,
    a = Obj txs /\ b = Obj keys /\ keys <> [] /\
    Forall2 (fun k t => any_hash t = transaction_hash k) keys txs.
Proof.
  unfold get_receivable_transactions.
  destruct (get_vm c None) as [vm|e]; simpl; [|discriminate].
  destruct (vm_get_receivable_transactions _ _ _ _) as [|k ks]; simpl.
  - intros [= <- <-]. left. split; reflexivity.
  - destruct (get_canonical_transaction c (transaction_hash k)) as [t|e] eqn:Hk; simpl;
      [|discriminate].
    destruct (resolve_receivable c [t] ks) as [res|e] eqn:Hloop; simpl; [|discriminate].
    intros [= <- <-]. right.
    apply resolve_receivable_inv in Hloop as (txs & -> & Hall).
    exists (t :: txs), (k :: ks). repeat split; [discriminate|].
    constructor; [exact (get_canonical_transaction_hash_aux c _ _ Hk)|].
    induction Hall as [|k' t' ks' txs' Hk' _ IH]; constructor;
      [exact (get_canonical_transaction_hash_aux c _ _ Hk')|exact IH].
Qed.

Lemma resolve_receivable_failure (c : Chain) (l1 l2 : list TransactionKey)
    (k : TransactionKey) (acc : list AnyTransaction) (e : Exc) :
  Forall (fun k' => is_ok (get_canonical_transaction c (transaction_hash k')) = true) l1 ->
  get_canonical_transaction c (transaction_hash k) = Raise e ->
  resolve_receivable c acc (l1 ++ k :: l2) = Raise e.
Proof.
  intros Hall Hk. revert acc.
  induction Hall as [|k' l1 Hk' _ IH]; intros acc; simpl.
  - rewrite Hk. reflexivity.
  - destruct (get_canonical_transaction c (transaction_hash k')); [|discriminate].
    simpl. apply IH.
Qed.

(** X18.  The pending keys are resolved in order and the first that does
    not resolve ends the call with its exception, whatever follows it. *)
Theorem get_receivable_transactions_first_failure (c : Chain) (address : Address) (vm : VM)
    (l1 l2 : list TransactionKey) (k : TransactionKey) (e : Exc) :
  get_vm c None = Ok vm ->
  vm_get_receivable_transactions (vm_class vm) (chaindb c) (vm_header vm) address
  = l1 ++ k :: l2 ->
  Forall (fun k' => is_ok (get_canonical_transaction c (transaction_hash k')) = true) l1 ->
  get_canonical_transaction c (transaction_hash k) = Raise e ->
  get_receivable_transactions c address = Raise e.
Proof.
  intros Hvm Hkeys Hall Hk.
  unfold get_receivable_transactions. rewrite Hvm. simpl. rewrite Hkeys.
  assert (Hlen : Nat.eqb (length (l1 ++ k :: l2)) 0 = false).
  { rewrite length_app. simpl. apply Nat.eqb_neq. lia. }
  rewrite Hlen. rewrite (resolve_receivable_failure c l1 l2 k [] e Hall Hk). reflexivity.
Qed.

(** X19.  [get_chain_at_block_parent] never returns a chain.  A parent hash
    that names no stored header ends in [ValidationError]; with the parent
    found and the child header built, the call of the class with one
    argument too many ends in [TypeError]. *)
Theorem get_chain_at_block_parent_never_returns (c : Chain) (block : Block) :
  exists e,
    get_chain_at_block_parent c block = Raise e /\
    (db_headers (chaindb c) !! parent_hash (BaseBlock.header block) = None ->
     e = ValidationError) /\
    (forall parent_header init_header,
        get_block_header_by_hash c (parent_hash (BaseBlock.header block)) = Ok parent_header ->
        create_header_from_parent c parent_header [] = Ok init_header ->
        e = TypeError).
Proof.
  unfold get_chain_at_block_parent.
  destruct (get_block_header_by_hash c (parent_hash (BaseBlock.header block)))
    as [parent|e] eqn:Hparent.
  - destruct (create_header_from_parent c parent []) as [init|e] eqn:Hinit; simpl.
    + exists TypeError. split; [reflexivity|]. split; [|reflexivity].
      intros Hmiss. revert Hparent.
      unfold get_block_header_by_hash, db_get_block_header_by_hash.
      destruct (validate_word _); simpl; [|discriminate]. rewrite Hmiss. discriminate.
    + exists e. split; [reflexivity|]. split.
      * intros Hmiss. revert Hparent.
        unfold get_block_header_by_hash, db_get_block_header_by_hash.
        destruct (validate_word _); simpl; [|discriminate]. rewrite Hmiss. discriminate.
      * intros p i [= <-] Hi. congruence.
  - assert (He : e = ValidationError \/ e = HeaderNotFound).
    { revert Hparent. unfold get_block_header_by_hash, db_get_block_header_by_hash,
        validate_word.
      destruct (Nat.eqb _ 32); simpl; [|intros [= <-]; left; reflexivity].
      destruct (db_headers (chaindb c) !! _); [discriminate|].
      intros [= <-]. right. reflexivity. }
    exists ValidationError. split; [destruct He as [->| ->]; reflexivity|].
    split; [reflexivity|discriminate].
Qed.

Lemma get_receivable_transactions_shape_aux (c : Chain) (address : Address) (vm : VM)
    (a : FalseOr (list AnyTransaction)) (b : FalseOr (list TransactionKey)) :
  get_vm c None = Ok vm ->
  get_receivable_transactions c address = Ok (a, b) ->
  let keys := vm_get_receivable_transactions (vm_class vm) (chaindb c) (vm_header vm) address in
  (a = PyFalse /\ b = PyFalse /\ keys = []) \/
  exists txs, a = Obj txs /\ b = Obj keys /\ keys <> [] /\ length txs = length keys.
Proof.
  intros Hvm. unfold get_receivable_transactions. rewrite Hvm. simpl.
  destruct (vm_get_receivable_transactions _ _ _ _) as [|k ks]; simpl.
  - intros [= <- <-]. left. repeat split.
  - change (rbind (get_canonical_transaction c (transaction_hash k))
              (fun tx => resolve_receivable c [tx] ks))
      with (resolve_receivable c [] (k :: ks)).
    destruct (resolve_receivable c [] (k :: ks)) as [res|e] eqn:Hloop; simpl; [|discriminate].
    intros [= <- <-]. right.
    apply resolve_receivable_inv in Hloop as (txs & -> & Hall).
    exists txs. repeat split; [discriminate|].
    symmetry. exact (Forall2_length _ _ _ Hall).
Qed.

Lemma get_receivable_transactions_resolved_aux (c : Chain) (address : Address) (vm : VM)
    (a : FalseOr (list AnyTransaction)) (b : FalseOr (list TransactionKey)) :
  get_vm c None = Ok vm ->
  get_receivable_transactions c address = Ok (a, b) ->
  let keys := vm_get_receivable_transactions (vm_class vm) (chaindb c) (vm_header vm) address in
  (a = PyFalse /\ b = PyFalse /\ keys = []) \/
  exists txs,
    a = Obj txs /\ b = Obj keys /\ keys <> [] /\
    Forall2 (fun k tx => get_canonical_transaction c (transaction_hash k) = Ok tx) keys txs.
Proof.
  intros Hvm. unfold get_receivable_transactions. rewrite Hvm. simpl.
  destruct (vm_get_receivable_transactions _ _ _ _) as [|k ks]; simpl.
  - intros [= <- <-]. left. repeat split.
  - change (rbind (get_canonical_transaction c (transaction_hash k))
              (fun tx => resolve_receivable c [tx] ks))
      with (resolve_receivable c [] (k :: ks)).
    destruct (resolve_receivable c [] (k :: ks)) as [res|e] eqn:Hloop; simpl; [|discriminate].
    intros [= <- <-]. right.
    apply resolve_receivable_inv in Hloop as (txs & -> & Hall).
    exists txs. repeat split; [discriminate|exact Hall].
Qed.

End MoreProperties.

(** ** Ancestors, blocks by hash and number, receivable transactions *)

Section AncestorsAndReceivables.
Context `{Externals}.
Variable number_index : ChainDB -> Z -> result Hash32.
Variable BaseKey : Type.
Variable private_key : option BaseKey.
Variable sign : BaseReceiveTransaction -> option BaseKey -> Z -> result (Z * Z * Z).
Variable create_receive :
  VM -> ChainDB -> Hash32 -> AnyTransaction -> Z -> Z -> Z -> result BaseReceiveTransaction.

Lemma to_tuple_Forall2 {A B : Type} (f : A -> result B) (l : list A) (res : list B) :
  to_tuple f l = Ok res <-> Forall2 (fun x y => f x = Ok y) l res.
Proof.
  revert res. induction l as [|x rest IH]; intros res; simpl.
  - split; [intros [= <-]; constructor|intros Hall; inversion Hall; reflexivity].
  - split.
    + destruct (f x) as [y|e] eqn:Hx; simpl; [|discriminate].
      destruct (to_tuple f rest) as [ys|e] eqn:Hrest; simpl; [|discriminate].
      intros [= <-]. constructor; [exact Hx|]. apply IH. reflexivity.
    + intros Hall. inversion Hall as [|x' y l' ys Hx Hrest]; subst.
      rewrite Hx. simpl. apply IH in Hrest. rewrite Hrest. reflexivity.
Qed.

Lemma rev_python_range (lo : Z) (n : nat) :
  rev (map (fun i => lo + Z.of_nat i) (seq 0 n))
  = map (fun i => lo + Z.of_nat n - 1 - Z.of_nat i) (seq 0 n).
Proof.
  induction n as [|n IH].
  - reflexivity.
  - rewrite seq_S at 1. rewrite map_app, rev_app_distr. simpl rev. simpl app.
    rewrite IH. simpl seq. simpl map. f_equal; [lia|].
    rewrite <- seq_shift, map_map. apply map_ext. intros i. lia.
Qed.

(** X20.  [get_ancestors] of a limit that is not positive, or from a header
    numbered 0 or lower, is the empty tuple, and no block is looked up. *)
Theorem get_ancestors_none (c : Chain) (limit : Z) (hd : BlockHeader) :
  limit <= 0 \/ block_number hd <= 0 ->
  get_ancestors number_index c limit (Some hd) = Ok [].
Proof.
  intros Hedge. unfold get_ancestors, python_range.
  replace (Z.to_nat (block_number hd - Z.max (block_number hd - limit) 0)) with 0%nat by lia.
  reflexivity.
Qed.

(** X21.  From a header numbered [n] and for a limit that is not negative,
    [get_ancestors] returns, when it returns, [min(limit, n)] blocks: the
    canonical blocks numbered [n - 1], [n - 2], ... in that order. *)
Theorem get_ancestors_descending (c : Chain) (limit : Z) (hd : BlockHeader)
    (blocks : list Block) :
  0 <= limit ->
  0 <= block_number hd ->
  get_ancestors number_index c limit (Some hd) = Ok blocks ->
  length blocks = Z.to_nat (Z.min limit (block_number hd)) /\
  forall i block,
    blocks !! i = Some block ->
    get_canonical_block_by_number number_index c (block_number hd - 1 - Z.of_nat i) = Ok block.
Proof.
  intros Hlimit Hnumber. unfold get_ancestors, python_range.
  set (lo := Z.max (block_number hd - limit) 0).
  set (n := Z.to_nat (block_number hd - lo)).
  rewrite rev_python_range. intros Hrun.
  apply to_tuple_Forall2 in Hrun.
  assert (Hlen : length blocks = n).
  { apply Forall2_length in Hrun. rewrite length_map, length_seq in Hrun. lia. }
  split; [unfold n, lo in Hlen; lia|].
  intros i block Hi.
  assert (Hlt : (i < n)%nat).
  { rewrite <- Hlen. apply lookup_lt_Some in Hi. exact Hi. }
  assert (Hnth : map (fun i => lo + Z.of_nat n - 1 - Z.of_nat i) (seq 0 n) !! i
                 = Some (block_number hd - 1 - Z.of_nat i)).
  { rewrite list_lookup_fmap, lookup_seq_lt by exact Hlt. simpl. f_equal. unfold n, lo. lia. }
  destruct (Forall2_lookup_l _ _ _ _ _ Hrun Hnth) as (block' & Hi' & Hget).
  rewrite Hi in Hi'. injection Hi' as <-. exact Hget.
Qed.

(** X22.  [get_block_by_hash] raises [ValidationError] for a hash that is
    not 32 bytes long and [HeaderNotFound] for a word that names no header;
    the block it returns is built on the stored header by the ruleset of
    that header's timestamp, whatever the tip is. *)
Theorem get_block_by_hash_result (c : Chain) (h : Hash32) :
  (String.length h <> 32%nat -> get_block_by_hash c h = Raise ValidationError) /\
  (String.length h = 32%nat -> db_headers (chaindb c) !! h = None ->
   get_block_by_hash c h = Raise HeaderNotFound) /\
  (forall block,
      get_block_by_hash c h = Ok block ->
      exists block_header cls,
        db_headers (chaindb c) !! h = Some block_header /\
        get_vm_class_for_block_timestamp (vm_configuration c) (Some (timestamp block_header))
        = Ok cls /\
        block = vm_block cls (chaindb c) block_header).
Proof.
  unfold get_block_by_hash, get_block_header_by_hash, db_get_block_header_by_hash,
    validate_word.
  split; [|split].
  - intros Hlen. apply Nat.eqb_neq in Hlen. rewrite Hlen. reflexivity.
  - intros Hlen Hmiss. apply Nat.eqb_eq in Hlen. rewrite Hlen. simpl. rewrite Hmiss.
    reflexivity.
  - intros block. destruct (Nat.eqb (String.length h) 32); simpl; [|discriminate].
    destruct (db_headers (chaindb c) !! h) as [block_header|]; simpl; [|discriminate].
    unfold get_block_by_header, get_vm.
    destruct (get_vm_class_for_block_timestamp _ _) as [cls|e] eqn:Hcls; simpl;
      [|discriminate].
    intros [= <-]. exists block_header, cls. repeat split. exact Hcls.
Qed.

Lemma sign_receivable_length (c : Chain) (keys : list TransactionKey) (i : nat)
    (txs : list AnyTransaction) (signed : list BaseReceiveTransaction) :
  sign_receivable BaseKey private_key sign create_receive c keys i txs = Ok signed ->
  length signed = length txs.
Proof.
  revert i signed. induction txs as [|t rest IH]; intros i signed; simpl.
  - intros [= <-]. reflexivity.
  - destruct (get_vm c None); simpl; [|discriminate].
    destruct (keys !! i); simpl; [|discriminate].
    destruct (create_receive _ _ _ _ _ _ _); simpl; [|discriminate].
    destruct (receive_get_signed _ _ _ _ _); simpl; [|discriminate].
    destruct (sign_receivable _ _ _ _ _ _ _ rest) as [l|] eqn:Hrest; simpl; [|discriminate].
    intros [= <-]. simpl. f_equal. exact (IH _ _ Hrest).
Qed.

(** X23.  With nothing pending for the wallet address,
    [create_receivable_signed_transactions] returns the empty list, and
    [populate_queue_block_with_receive_tx] returns it and leaves the chain as
    it is, without even taking a queue block. *)
Theorem populate_nothing_pending (c : Chain) (vm : VM) :
  get_vm c None = Ok vm ->
  vm_get_receivable_transactions (vm_class vm) (chaindb c) (vm_header vm) (wallet_address c)
  = [] ->
  create_receivable_signed_transactions BaseKey private_key sign create_receive c = Ok [] /\
  populate_queue_block_with_receive_tx BaseKey private_key sign create_receive c = (Ok [], c).
Proof.
  intros Hvm Hkeys.
  assert (Hnone : create_receivable_signed_transactions BaseKey private_key sign
                    create_receive c = Ok []).
  { unfold create_receivable_signed_transactions, get_receivable_transactions.
    rewrite Hvm. simpl. rewrite Hkeys. reflexivity. }
  split; [exact Hnone|].
  unfold populate_queue_block_with_receive_tx, mbind, reads. rewrite Hnone. reflexivity.
Qed.

Lemma sign_receivable_lookup (c : Chain) (vm : VM) (keys : list TransactionKey) (i : nat)
    (txs : list AnyTransaction) (signed : list BaseReceiveTransaction) :
  get_vm c None = Ok vm ->
  sign_receivable BaseKey private_key sign create_receive c keys i txs = Ok signed ->
  forall (j : nat) tx rtx,
    txs !! j = Some tx -> signed !! j = Some rtx ->
    exists k, keys !! (i + j)%nat = Some k /\
              signed_for BaseKey private_key sign create_receive c vm k tx rtx.
Proof.
  intros Hvm. revert i signed. induction txs as [|t rest IH]; intros i signed; simpl.
  - intros _ j tx rtx Hj. destruct j; discriminate.
  - rewrite Hvm. simpl.
    destruct (keys !! i) as [k|] eqn:Hk; simpl; [|discriminate].
    destruct (create_receive vm (chaindb c) (key_sender_block_hash k) t 0 0 0)
      as [unsigned|e] eqn:Hcreate; simpl; [|discriminate].
    unfold receive_get_signed.
    destruct (sign unsigned private_key (network_id c)) as [[[v r] s]|e] eqn:Hsign; simpl;
      [|discriminate].
    destruct (sign_receivable _ _ _ _ _ _ _ rest) as [l|e] eqn:Hrest; simpl; [|discriminate].
    intros [= <-] j tx rtx Htx Hrtx. destruct j as [|j]; simpl in Htx, Hrtx.
    + injection Htx as <-. injection Hrtx as <-.
      exists k. rewrite Nat.add_0_r. split; [exact Hk|].
      exists unsigned, v, r, s. repeat split; assumption.
    + destruct (IH (S i) l Hrest j tx rtx Htx Hrtx) as (k' & Hk' & Hfor).
      exists k'. split; [|exact Hfor].
      rewrite <- Hk'. f_equal. lia.
Qed.

(** X24.  When [populate_queue_block_with_receive_tx] returns, the list it
    returns goes with the pending keys of the wallet address position by
    position: at each position stands the receive transaction that the
    ruleset of the tip builds, with zero signature fields, from the
    transaction the key's hash resolves to and the key's sender block hash,
    carrying the signature made with the chain's private key for the chain's
    network id.  The queue block holds every one of them. *)
Theorem populate_stages_what_it_returns (c c1 : Chain) (vm : VM)
    (receive_tx : list BaseReceiveTransaction) :
  get_vm c None = Ok vm ->
  populate_queue_block_with_receive_tx BaseKey private_key sign create_receive c
  = (Ok receive_tx, c1) ->
  Forall2 (fun k rtx =>
             exists tx,
               get_canonical_transaction c (transaction_hash k) = Ok tx /\
               signed_for BaseKey private_key sign create_receive c vm k tx rtx)
    (vm_get_receivable_transactions (vm_class vm) (chaindb c) (vm_header vm)
       (wallet_address c))
    receive_tx /\
  (receive_tx = [] /\ c1 = c \/
   exists qb1,
     queue_block c1 = Some qb1 /\
     Forall (fun rtx => contains_receive_transaction qb1 rtx = true) receive_tx).
Proof.
  intros Hvm. unfold populate_queue_block_with_receive_tx, mbind, reads, mret.
  destruct (create_receivable_signed_transactions _ _ _ _ c) as [signed|e] eqn:Hsigned;
    [|discriminate].
  destruct (add_transactions_to_queue_block (inr (map Receive signed)) c)
    as [[[]|e] c'] eqn:Hadd; [|discriminate].
  intros [= <- <-]. split.
  - unfold create_receivable_signed_transactions in Hsigned.
    destruct (get_receivable_transactions c (wallet_address c)) as [[a b]|e] eqn:Hrec;
      simpl in Hsigned; [|discriminate].
    destruct (get_receivable_transactions_resolved_aux c _ vm a b Hvm Hrec)
      as [(-> & -> & ->)|(txs & -> & -> & Hne & Hall)].
    + injection Hsigned as <-. constructor.
    + pose proof (Forall2_length _ _ _ Hall) as Hlen.
      pose proof (sign_receivable_length _ _ _ _ _ Hsigned) as Hlen'.
      apply Forall2_same_length_lookup. split; [congruence|].
      intros j k rtx Hk Hrtx.
      destruct (Forall2_lookup_l _ _ _ _ _ Hall Hk) as (tx & Htx & Hget).
      destruct (sign_receivable_lookup c vm _ 0 txs signed Hvm Hsigned j tx rtx Htx Hrtx)
        as (k' & Hk' & Hfor).
      simpl in Hk'. rewrite Hk in Hk'. injection Hk' as <-.
      exists tx. split; assumption.
  - destruct signed as [|rtx rest].
    + left. split; [reflexivity|]. simpl in Hadd. unfold mret in Hadd. congruence.
    + right. simpl in Hadd.
      destruct (add_each_Ok_inv (map Receive (rtx :: rest)) c c') as (qb0 & _ & _ & ->);
        [discriminate|exact Hadd|].
      eexists. split; [reflexivity|].
      destruct (fold_stage_keeps (map Receive (rtx :: rest)) qb0) as (_ & _ & _ & _ & Hall).
      rewrite Forall_forall in Hall. apply Forall_forall. intros r Hr.
      apply (Hall (Receive r)). apply list_elem_of_fmap. exists r. split; [reflexivity|exact Hr].
Qed.

End AncestorsAndReceivables.

(** ** Transactions *)

Lemma rbind_unit_Ok (m : result unit) (k : unit -> result unit) :
  rbind m k = Ok tt <-> m = Ok tt /\ k tt = Ok tt.
Proof.
  destruct m as [[]|e]; simpl; split; try tauto; try discriminate.
Qed.

Lemma validate_uint256_iff (x : Z) : validate_uint256 x = Ok tt <-> 0 <= x <= UINT_256_MAX.
Proof.
  unfold validate_uint256.
  destruct (Z.ltb_spec x 0); [split; [discriminate|lia]|].
  destruct (Z.gtb_spec x UINT_256_MAX); split; try discriminate; try reflexivity; lia.
Qed.

Lemma validate_lt_secpk1n_iff (x : Z) : validate_lt_secpk1n x = Ok tt <-> x < SECPK1_N.
Proof.
  unfold validate_lt_secpk1n.
  destruct (Z.geb_spec x SECPK1_N); split; try discriminate; try reflexivity; lia.
Qed.

Lemma validate_lt_secpk1n2_iff (x : Z) : validate_lt_secpk1n2 x = Ok tt <-> x < SECPK1_N / 2.
Proof.
  unfold validate_lt_secpk1n2.
  destruct (Z.geb_spec x (SECPK1_N / 2)); split; try discriminate; try reflexivity; lia.
Qed.

Lemma validate_gte_iff (x m : Z) : validate_gte x (Some m) = Ok tt <-> m <= x.
Proof.
  unfold validate_gte.
  destruct (Z.ltb_spec x m); split; try discriminate; try reflexivity; lia.
Qed.

Lemma validate_lte_iff (x m : Z) : validate_lte x (Some m) = Ok tt <-> x <= m.
Proof.
  unfold validate_lte.
  destruct (Z.gtb_spec x m); split; try discriminate; try reflexivity; lia.
Qed.

Lemma eip155_window (v : Z) :
  35 + 2 * extract_chain_id v <= v <= 36 + 2 * extract_chain_id v.
Proof.
  unfold extract_chain_id. destruct (Z.even v) eqn:Hev.
  - apply Z.even_spec in Hev as [k ->].
    replace (2 * k - 35 - 1) with (2 * (k - 18)) by lia.
    rewrite (Z.mul_comm 2 (k - 18)), Z.div_mul by lia. lia.
  - assert (Hodd : Z.odd v = true) by (rewrite <- Z.negb_even, Hev; reflexivity).
    apply Z.odd_spec in Hodd as [k ->].
    replace (2 * k + 1 - 35) with (2 * (k - 17)) by lia.
    rewrite (Z.mul_comm 2 (k - 17)), Z.div_mul by lia. lia.
Qed.

Lemma secpk1n_facts : SECPK1_N / 2 < SECPK1_N /\ SECPK1_N <= UINT_256_MAX.
Proof. split; vm_compute; [reflexivity|discriminate]. Qed.

(** X25.  A receive transaction passes [validate] exactly when [v] is at
    least 35 and in the 256-bit range, [r] is in [[1, SECPK1_N)], [s] is in
    [[1, SECPK1_N / 2)] and the validation of the base class passes: the
    window of [v] is that of the chain id read off [v], so it asks no more
    of [v] than to carry one. *)
Theorem receive_transaction_validate_iff
    (super_validate : BaseReceiveTransaction -> result unit) (tx : BaseReceiveTransaction) :
  HeliosTestnetReceiveTransaction.validate super_validate tx = Ok tt <->
  35 <= HeliosTestnetReceiveTransaction.v tx <= UINT_256_MAX /\
  1 <= HeliosTestnetReceiveTransaction.r tx < SECPK1_N /\
  1 <= HeliosTestnetReceiveTransaction.s tx < SECPK1_N / 2 /\
  super_validate tx = Ok tt.
Proof.
  destruct secpk1n_facts as [Hhalf Hmax].
  unfold HeliosTestnetReceiveTransaction.validate.
  rewrite !rbind_unit_Ok, !validate_uint256_iff, !validate_lt_secpk1n_iff,
    !validate_gte_iff, validate_lt_secpk1n2_iff.
  unfold HeliosTestnetReceiveTransaction.v_min, HeliosTestnetReceiveTransaction.v_max,
    HeliosTestnetReceiveTransaction.chain_id, is_eip_155_signed_transaction.
  pose proof (eip155_window (HeliosTestnetReceiveTransaction.v tx)) as Hwin.
  destruct (Z.geb_spec (HeliosTestnetReceiveTransaction.v tx) 35) as [Hge|Hlt].
  - rewrite validate_gte_iff, validate_lte_iff. split; intros; repeat split; try tauto; lia.
  - simpl. split; [intros (_ & _ & _ & _ & _ & _ & _ & Habs & _); discriminate|lia].
Qed.

Section SendTransaction.
Import HeliosTestnetTransaction HeliosTestnetTransactionMethods.
Variable CREATE_CONTRACT_ADDRESS : Address.
Variables GAS_TX GAS_TXCREATE GAS_TXDATAZERO GAS_TXDATANONZERO : Z.
Variable validate_canonical_address : Address -> result unit.
Variable validate_is_bytes : string -> result unit.
Variable super_validate : HeliosTestnetTransaction.t -> result unit.

(** X26.  A send transaction passes [validate] exactly when nonce, gas
    price, gas and value are in the 256-bit range, the destination is the
    contract creation address or a canonical address, the payload is bytes,
    the signature is within the bounds of the receive transaction's, and the
    validation of the base class passes. *)
Theorem send_transaction_validate_iff (tx : HeliosTestnetTransaction.t) :
  validate CREATE_CONTRACT_ADDRESS validate_canonical_address validate_is_bytes
    super_validate tx = Ok tt <->
  0 <= nonce tx <= UINT_256_MAX /\ 0 <= gas_price tx <= UINT_256_MAX /\
  0 <= gas tx <= UINT_256_MAX /\ 0 <= value tx <= UINT_256_MAX /\
  (to tx = CREATE_CONTRACT_ADDRESS \/ validate_canonical_address (to tx) = Ok tt) /\
  validate_is_bytes (data tx) = Ok tt /\
  35 <= v tx <= UINT_256_MAX /\ 1 <= r tx < SECPK1_N /\ 1 <= s tx < SECPK1_N / 2 /\
  super_validate tx = Ok tt.
Proof.
  destruct secpk1n_facts as [Hhalf Hmax].
  unfold validate.
  rewrite !rbind_unit_Ok, !validate_uint256_iff, !validate_lt_secpk1n_iff,
    !validate_gte_iff, validate_lt_secpk1n2_iff.
  assert (Hto : (if negb (String.eqb (to tx) CREATE_CONTRACT_ADDRESS)
                 then validate_canonical_address (to tx) else Ok tt) = Ok tt <->
                (to tx = CREATE_CONTRACT_ADDRESS \/ validate_canonical_address (to tx) = Ok tt)).
  { destruct (String.eqb_spec (to tx) CREATE_CONTRACT_ADDRESS); simpl; tauto. }
  rewrite Hto. clear Hto.
  unfold v_min, v_max, chain_id, is_eip_155_signed_transaction.
  pose proof (eip155_window (v tx)) as Hwin.
  destruct (Z.geb_spec (v tx) 35) as [Hge|Hlt].
  - rewrite validate_gte_iff, validate_lte_iff. split; intros; repeat split; try tauto; lia.
  - simpl. split; [|lia].
    intros (_ & _ & _ & _ & _ & _ & _ & _ & _ & _ & _ & _ & _ & Habs & _). discriminate.
Qed.

Lemma count_zero_bytes_bounds (data : string) :
  0 <= count_zero_bytes data <= Z.of_nat (String.length data).
Proof.
  unfold count_zero_bytes. induction data as [|b data IH]; simpl; [lia|].
  destruct (Ascii.eqb b zero); simpl length; lia.
Qed.

Lemma count_zero_bytes_append (d1 d2 : string) :
  count_zero_bytes (String.append d1 d2) = count_zero_bytes d1 + count_zero_bytes d2.
Proof.
  unfold count_zero_bytes. induction d1 as [|b d1 IH]; simpl; [reflexivity|].
  destruct (Ascii.eqb b zero); simpl length; lia.
Qed.

Lemma string_length_append (d1 d2 : string) :
  String.length (String.append d1 d2) = (String.length d1 + String.length d2)%nat.
Proof. induction d1 as [|b d1 IH]; simpl; [reflexivity|]. rewrite IH. reflexivity. Qed.

(** X27.  With a zero byte costing no more than another byte and no less
    than nothing, the intrinsic gas lies between the base cost plus the
    payload at the price of zero bytes and the base cost plus the payload at
    the price of other bytes, the base cost being [GAS_TX], and [GAS_TXCREATE]
    on top for a contract creation; a transaction without payload costs the
    base cost. *)
Theorem intrinsic_gas_bounds (tx : HeliosTestnetTransaction.t) :
  0 <= GAS_TXDATAZERO <= GAS_TXDATANONZERO ->
  let base :=
    GAS_TX + (if String.eqb (to tx) CREATE_CONTRACT_ADDRESS then GAS_TXCREATE else 0) in
  let gas :=
    get_intrinsic_gas CREATE_CONTRACT_ADDRESS GAS_TX GAS_TXCREATE GAS_TXDATAZERO
      GAS_TXDATANONZERO tx in
  base + Z.of_nat (String.length (data tx)) * GAS_TXDATAZERO <= gas /\
  gas <= base + Z.of_nat (String.length (data tx)) * GAS_TXDATANONZERO /\
  (data tx = EmptyString -> gas = base).
Proof.
  intros Hcost base gas. unfold gas, base, get_intrinsic_gas, _get_helios_testnet_intrinsic_gas.
  pose proof (count_zero_bytes_bounds (data tx)) as Hz.
  repeat split.
  - nia.
  - nia.
  - intros ->. unfold count_zero_bytes. simpl. lia.
Qed.

(** X28.  The cost of a payload is the sum of the costs of its parts: for
    transactions to one destination, with the payload of the first the
    payloads of the two others one after the other, the intrinsic gas of the
    first is the sum of the two others' less one base cost. *)
Theorem intrinsic_gas_append (tx tx1 tx2 : HeliosTestnetTransaction.t) :
  to tx1 = to tx ->
  to tx2 = to tx ->
  data tx = String.append (data tx1) (data tx2) ->
  let gas :=
    get_intrinsic_gas CREATE_CONTRACT_ADDRESS GAS_TX GAS_TXCREATE GAS_TXDATAZERO
      GAS_TXDATANONZERO in
  gas tx
  = gas tx1 + gas tx2
    - (GAS_TX + (if String.eqb (to tx) CREATE_CONTRACT_ADDRESS then GAS_TXCREATE else 0)).
Proof.
  intros Hto1 Hto2 Hdata gas.
  unfold gas, get_intrinsic_gas, _get_helios_testnet_intrinsic_gas.
  rewrite Hto1, Hto2, Hdata, count_zero_bytes_append, string_length_append.
  destruct (String.eqb (to tx) CREATE_CONTRACT_ADDRESS); lia.
Qed.

End SendTransaction.

(** ** The theorems at work on the small instance *)

(** A table of two rulesets, a tip stamped 110 and the clock at 1000. *)
Lemma get_vm_class_greatest_activation_witness :
  0 <= 600 <= UINT_256_MAX /\ ascending [(0, vm_a); (500, vm_b)] /\
  exists ts, In (ts, vm_b) [(0, vm_a); (500, vm_b)] /\ ts <= 600 /\
    forall ts' vm', In (ts', vm') [(0, vm_a); (500, vm_b)] -> ts' <= 600 -> ts' <= ts.
Proof.
  assert (Ht : 0 <= 600 <= UINT_256_MAX) by (unfold UINT_256_MAX; lia).
  assert (Hs : ascending [(0, vm_a); (500, vm_b)]).
  { repeat constructor; simpl; lia. }
  split; [exact Ht|]. split; [exact Hs|].
  exact (get_vm_class_greatest_activation (H := example_externals)
           [(0, vm_a); (500, vm_b)] 600 Ht Hs).
Defined.

(** The same two entries listed the other way round: at 600 the scan meets the
    entry of 0 first. *)
Lemma unordered_table_first_met :
  get_vm_class_for_block_timestamp (H := example_externals)
    (Some [(500, vm_b); (0, vm_a)]) (Some 600) = Ok vm_a.
Proof. reflexivity. Qed.

(** Block 5 offered to a chain whose tip is 1, three seconds after its parent
    where the ruleset asks for ten. *)
Lemma import_block_number_mismatch_witness :
  BaseBlock.number block_5_too_soon <> block_number (header one_fork) /\
  import_block (H := example_externals) block_5_too_soon true one_fork
  = (Raise NotEnoughTimeBetweenBlocks, one_fork).
Proof.
  assert (Hne : BaseBlock.number block_5_too_soon <> block_number (header one_fork))
    by (vm_compute; discriminate).
  split; [exact Hne|].
  destruct (import_block_number_mismatch (H := example_externals)
              block_5_too_soon true one_fork Hne) as (e & Himport & _ & _ & Htime).
  rewrite Himport.
  rewrite (Htime {| vm_class := vm_a; vm_header := header one_fork |}); reflexivity.
Defined.

(** C1 as stated fails there: the number is wrong and the exception is not
    [ValidationError]. *)
Lemma import_block_number_mismatch_other_error :
  BaseBlock.number block_5_too_soon <> block_number (header one_fork) /\
  fst (import_block (H := example_externals) block_5_too_soon true one_fork)
  = Raise NotEnoughTimeBetweenBlocks /\
  fst (import_block (H := example_externals) block_5_too_soon true one_fork)
  <> Raise ValidationError.
Proof.
  split; [vm_compute; discriminate|].
  split; [vm_compute; reflexivity|vm_compute; discriminate].
Qed.

Lemma example_rulesets_number_children (ts : Z) (cls : VMClass) :
  In (ts, cls) [(0, vm_a); (500, vm_b)] -> numbers_children (H := example_externals) cls.
Proof.
  intros [Hin|[Hin|[]]]; injection Hin as _ <-;
    intros parent params child [= <-]; split; reflexivity.
Qed.

(** Block 1 imported on the tip 1. *)
Lemma import_block_success_witness :
  exists imported c',
    import_block (H := example_externals) block_1 true two_forks = (Ok imported, c') /\
    db_canonical_head (chaindb c') = Some (block_hash (H := example_externals) imported) /\
    get_canonical_head c' = Ok (BaseBlock.header imported) /\
    block_number (header c') = 2 /\
    parent_hash (header c') = block_hash (H := example_externals) imported /\
    queue_block c' = None.
Proof.
  set (res := import_block (H := example_externals) block_1 true two_forks).
  set (imported := match fst res with Ok b => b | Raise _ => block_1 end).
  assert (Hres : res = (Ok imported, snd res)) by (vm_compute; reflexivity).
  exists imported, (snd res). split; [exact Hres|].
  exact (import_block_success (H := example_externals) block_1 imported true two_forks
           (snd res) [(0, vm_a); (500, vm_b)] eq_refl example_rulesets_number_children Hres).
Defined.

(** Transaction 8 staged once, then again and again. *)
Lemma add_send_transaction_idempotent_witness :
  exists c1,
    add_transaction_to_queue_block (H := example_externals) (Send (example_tx 8)) one_fork
    = (Ok tt, c1) /\
    add_transaction_to_queue_block (H := example_externals) (Send (example_tx 8)) c1
    = (Ok tt, c1) /\
    (forall n,
        add_transactions_to_queue_block (H := example_externals)
          (inr (repeat (Send (example_tx 8)) (S n))) one_fork = (Ok tt, c1)) /\
    exists qb1, queue_block c1 = Some qb1 /\
      count_transaction (H := example_externals) qb1 (example_tx 8) = 1%nat.
Proof.
  set (c1 := snd (add_transaction_to_queue_block (H := example_externals)
                    (Send (example_tx 8)) one_fork)).
  assert (Hadd : add_transaction_to_queue_block (H := example_externals)
                   (Send (example_tx 8)) one_fork = (Ok tt, c1))
    by (vm_compute; reflexivity).
  exists c1. split; [exact Hadd|].
  apply (add_send_transaction_idempotent (H := example_externals) (example_tx 8) one_fork c1 Hadd).
  intros qb0 Hstaged. vm_compute in Hstaged. injection Hstaged as <-. vm_compute. lia.
Defined.

(** The clock at 1000 picks the second ruleset for every parent. *)
Lemma create_header_from_parent_by_clock_witness :
  get_vm_class_for_block_timestamp (H := example_externals) (vm_configuration two_forks)
    (Some (time_time (Externals := example_externals))) = Ok vm_b /\
  forall parent_header header_params,
    create_header_from_parent (H := example_externals) two_forks parent_header header_params
    = vm_create_header_from_parent vm_b parent_header header_params.
Proof.
  split; [reflexivity|].
  exact (create_header_from_parent_by_clock (H := example_externals) two_forks vm_b eq_refl).
Defined.

(** C5 as stated fails there: the two parents are stamped under different entries
    of the table, and one ruleset builds the child of both; for the first it
    is not the ruleset of the parent's timestamp. *)
Lemma create_header_from_parent_not_by_parent_timestamp :
  get_vm_class_for_block_timestamp (H := example_externals) (vm_configuration two_forks)
    (Some (timestamp parent_under_a)) = Ok vm_a /\
  get_vm_class_for_block_timestamp (H := example_externals) (vm_configuration two_forks)
    (Some (timestamp parent_under_b)) = Ok vm_b /\
  create_header_from_parent (H := example_externals) two_forks parent_under_a []
  = vm_create_header_from_parent vm_b parent_under_a [] /\
  create_header_from_parent (H := example_externals) two_forks parent_under_b []
  = vm_create_header_from_parent vm_b parent_under_b [] /\
  create_header_from_parent (H := example_externals) two_forks parent_under_a []
  <> vm_create_header_from_parent vm_a parent_under_a [].
Proof.
  repeat split; try reflexivity. vm_compute. discriminate.
Qed.

(** A header at the lower bound computed from the genesis header. *)
Lemma validate_gaslimit_window_witness :
  get_block_header_by_hash one_fork (parent_hash (example_header 0 1 203 3138525))
  = Ok (BaseBlock.header genesis_block) /\
  compute_gas_limit_bounds (Externals := example_externals) (BaseBlock.header genesis_block)
  = (3138525, 3144659) /\
  validate_gaslimit (H := example_externals) one_fork (example_header 0 1 203 3138525) = Ok tt /\
  validate_gaslimit (H := example_externals) one_fork (example_header 0 1 203 3144659) = Ok tt.
Proof.
  assert (Hparent : forall gl,
             get_block_header_by_hash one_fork (parent_hash (example_header 0 1 203 gl))
             = Ok (BaseBlock.header genesis_block)) by (intros gl; vm_compute; reflexivity).
  assert (Hbounds : compute_gas_limit_bounds (Externals := example_externals)
                      (BaseBlock.header genesis_block) = (3138525, 3144659))
    by (vm_compute; reflexivity).
  split; [exact (Hparent 3138525)|]. split; [exact Hbounds|]. split.
  - apply (validate_gaslimit_window (H := example_externals) one_fork
             (example_header 0 1 203 3138525) _ _ _ (Hparent 3138525) Hbounds);
      [lia|left; reflexivity].
  - apply (validate_gaslimit_window (H := example_externals) one_fork
             (example_header 0 1 203 3144659) _ _ _ (Hparent 3144659) Hbounds);
      [lia|right; reflexivity].
Defined.

(** A header whose parent is not stored. *)
Lemma validate_gaslimit_parent_missing_witness :
  db_headers (chaindb one_fork) !! parent_hash orphan_header = None /\
  validate_gaslimit (H := example_externals) one_fork orphan_header = Raise HeaderNotFound.
Proof.
  assert (Hmiss : db_headers (chaindb one_fork) !! parent_hash orphan_header = None)
    by (vm_compute; reflexivity).
  split; [exact Hmiss|].
  exact (validate_gaslimit_parent_missing (H := example_externals) one_fork orphan_header Hmiss).
Defined.

(** C7 as stated fails there: the parent is missing and the exception is not
    [ValidationError]. *)
Lemma validate_gaslimit_parent_missing_other_error :
  db_headers (chaindb one_fork) !! parent_hash orphan_header = None /\
  validate_gaslimit (H := example_externals) one_fork orphan_header = Raise HeaderNotFound /\
  validate_gaslimit (H := example_externals) one_fork orphan_header <> Raise ValidationError.
Proof.
  split; [vm_compute; reflexivity|].
  split; [vm_compute; reflexivity|vm_compute; discriminate].
Qed.

(** One address with a pending key, one without. *)
Lemma get_receivable_transactions_result_witness :
  get_vm (H := example_externals) one_fork None
  = Ok {| vm_class := vm_a; vm_header := header one_fork |} /\
  get_receivable_transactions (H := example_externals) one_fork "nobody" = Ok (PyFalse, PyFalse) /\
  get_receivable_transactions (H := example_externals) one_fork "receiver"
  = Ok (Obj [Send (example_tx 7)], Obj [example_key]).
Proof.
  assert (Hvm : get_vm (H := example_externals) one_fork None
                = Ok {| vm_class := vm_a; vm_header := header one_fork |}) by reflexivity.
  split; [exact Hvm|]. split.
  - apply (get_receivable_transactions_result (H := example_externals) one_fork "nobody" _ Hvm).
    reflexivity.
  - apply (get_receivable_transactions_result (H := example_externals) one_fork "receiver" _ Hvm).
    + discriminate.
    + constructor; [vm_compute; reflexivity|constructor].
Defined.

(** C8 as stated fails there: nothing is pending and the pair returned is not a
    pair of empty lists. *)
Lemma get_receivable_transactions_not_empty_lists :
  vm_get_receivable_transactions vm_a (chaindb one_fork) (header one_fork) "nobody" = [] /\
  get_receivable_transactions (H := example_externals) one_fork "nobody" = Ok (PyFalse, PyFalse) /\
  get_receivable_transactions (H := example_externals) one_fork "nobody" <> Ok (Obj [], Obj []).
Proof.
  split; [reflexivity|]. split; [vm_compute; reflexivity|vm_compute; discriminate].
Qed.



(** A block of the queue block class that is not the chain's queue block (the
    chain has none), with a gas limit [validate_block] refuses: asked to
    validate, the chain imports it all the same. *)
Lemma import_block_queue_class_skips_validation_witness :
  queue_block one_fork = None /\
  get_vm (H := example_externals) one_fork None
  = Ok {| vm_class := vm_a; vm_header := header one_fork |} /\
  isinstance queue_block_1 (get_queue_block_class vm_a) = true /\
  import_block (H := example_externals) queue_block_1 true one_fork
  = import_block (H := example_externals) queue_block_1 false one_fork /\
  is_ok (fst (import_block (H := example_externals) queue_block_1 true one_fork)) = true /\
  validate_block (H := example_externals) one_fork queue_block_1 = Raise ValidationError.
Proof.
  assert (Hvm : get_vm (H := example_externals) one_fork None
                = Ok {| vm_class := vm_a; vm_header := header one_fork |}) by reflexivity.
  assert (Hinst : isinstance queue_block_1 (get_queue_block_class vm_a) = true) by reflexivity.
  split; [reflexivity|]. split; [exact Hvm|]. split; [exact Hinst|].
  split; [|split; vm_compute; reflexivity].
  exact (proj1 (import_block_queue_class_skips_validation (H := example_externals)
                  queue_block_1 one_fork _ Hvm Hinst)).
Defined.

(** ** The further properties at work on the small instance *)

Lemma resolver_last_listed_active_witness :
  get_vm_class_for_block_timestamp (H := example_externals)
    (Some [(500, vm_b); (0, vm_a)]) (Some 600) = Ok vm_a.
Proof.
  apply (resolver_last_listed_active (H := example_externals)).
  split; [unfold UINT_256_MAX; lia|].
  exists 0, [(500, vm_b)], []. repeat split; [lia|constructor].
Defined.

Lemma resolver_upward_closed_witness :
  exists vm2,
    get_vm_class_for_block_timestamp (H := example_externals)
      (Some [(500, vm_b); (0, vm_a)]) (Some 700) = Ok vm2.
Proof.
  apply (resolver_upward_closed (H := example_externals) [(500, vm_b); (0, vm_a)] 600 700 vm_a).
  - reflexivity.
  - unfold UINT_256_MAX. lia.
Defined.

Lemma add_transactions_frame_witness :
  header staged_chain = header one_fork /\ chaindb staged_chain = chaindb one_fork /\
  vm_configuration staged_chain = vm_configuration one_fork /\
  network_id staged_chain = network_id one_fork /\
  wallet_address staged_chain = wallet_address one_fork.
Proof.
  apply (add_transactions_frame (H := example_externals) (inl (Send (example_tx 8)))
           one_fork staged_chain (Ok tt)).
  vm_compute. reflexivity.
Defined.

Lemma add_transaction_guard_witness :
  add_transaction_to_queue_block (H := example_externals) (Send (example_tx 8)) unstaged_chain
  = (Raise InvalidQueueBlockState, set_queue_block (Some block_1) unstaged_chain).
Proof.
  apply (add_transaction_guard (H := example_externals)); reflexivity.
Defined.

Lemma add_receive_transaction_idempotent_witness :
  exists c1,
    add_transaction_to_queue_block (H := example_externals) (Receive example_receive) one_fork
    = (Ok tt, c1) /\
    add_transaction_to_queue_block (H := example_externals) (Receive example_receive) c1
    = (Ok tt, c1) /\
    (forall n,
        add_transactions_to_queue_block (H := example_externals)
          (inr (repeat (Receive example_receive) (S n))) one_fork = (Ok tt, c1)) /\
    exists qb1, queue_block c1 = Some qb1 /\
      contains_receive_transaction (H := example_externals) qb1 example_receive = true.
Proof.
  set (c1 := (add_transaction_to_queue_block (H := example_externals)
                (Receive example_receive) one_fork).2).
  assert (Hadd : add_transaction_to_queue_block (H := example_externals)
                   (Receive example_receive) one_fork = (Ok tt, c1))
    by (vm_compute; reflexivity).
  exists c1. split; [exact Hadd|].
  exact (add_receive_transaction_idempotent (H := example_externals) example_receive
           one_fork c1 Hadd).
Defined.

Lemma add_transactions_keeps_and_holds_witness :
  exists qb0 qb1,
    staged_block (H := example_externals) staged_chain = Ok qb0 /\
    queue_block
      (add_transactions_to_queue_block (H := example_externals)
         (inr [Send (example_tx 9); Receive example_receive]) staged_chain).2 = Some qb1 /\
    BaseBlock.header qb1 = BaseBlock.header qb0 /\
    (exists more, BaseBlock.transactions qb1 = BaseBlock.transactions qb0 ++ more) /\
    (exists more,
        BaseBlock.receive_transactions qb1 = BaseBlock.receive_transactions qb0 ++ more) /\
    Forall (fun t => contains_any (H := example_externals) qb1 t = true)
      [Send (example_tx 9); Receive example_receive].
Proof.
  apply (add_transactions_keeps_and_holds (H := example_externals)
           [Send (example_tx 9); Receive example_receive] staged_chain).
  - discriminate.
  - vm_compute. reflexivity.
Defined.

Lemma add_fresh_sends_in_order_witness :
  exists c1 qb1,
    add_transactions_to_queue_block (H := example_externals)
      (inr (map Send [example_tx 9; example_tx 6])) staged_chain = (Ok tt, c1) /\
    queue_block c1 = Some qb1 /\
    BaseBlock.transactions qb1 = [example_tx 8; example_tx 9; example_tx 6] /\
    BaseBlock.receive_transactions qb1 = [].
Proof.
  destruct (add_fresh_sends_in_order (H := example_externals) [example_tx 9; example_tx 6]
              staged_chain
              (example_block true (header one_fork) [example_tx 8]))
    as (c1 & qb1 & Hadd & Hqb & Htxs & Hrtxs).
  - discriminate.
  - vm_compute. reflexivity.
  - reflexivity.
  - apply (bool_decide_unpack _). vm_compute. exact I.
  - repeat constructor.
  - exists c1, qb1. repeat split; assumption.
Defined.

Lemma add_transactions_app_witness :
  add_transactions_to_queue_block (H := example_externals)
    (inr ([Send (example_tx 8)] ++ [Send (example_tx 9)])) one_fork
  = (do _ <- add_transactions_to_queue_block (H := example_externals)
               (inr [Send (example_tx 8)]);
     add_transactions_to_queue_block (H := example_externals) (inr [Send (example_tx 9)]))
      one_fork.
Proof.
  exact (add_transactions_app (H := example_externals) [Send (example_tx 8)]
           [Send (example_tx 9)] one_fork).
Defined.

Lemma import_block_only_at_tip_witness :
  BaseBlock.number block_1 = block_number (header two_forks) /\
  (BaseBlock.is_genesis block_1 = false ->
   exists gvm,
     get_vm (H := example_externals) two_forks None = Ok gvm /\
     vm_check_time_since_parent_block (vm_class gvm) (chaindb two_forks) (vm_header gvm)
       block_1 = Ok true).
Proof.
  set (res := import_block (H := example_externals) block_1 true two_forks).
  set (imported := match res.1 with Ok b => b | Raise _ => block_1 end).
  assert (Hres : res = (Ok imported, res.2)) by (vm_compute; reflexivity).
  exact (import_block_only_at_tip (H := example_externals) block_1 imported true two_forks
           res.2 Hres).
Defined.

Lemma import_block_validated_witness :
  exists imported,
    (import_block (H := example_externals) block_1 true two_forks).1 = Ok imported /\
    ensure_imported_block_unchanged (Externals := example_externals) imported block_1 = Ok tt.
Proof.
  set (res := import_block (H := example_externals) block_1 true two_forks).
  set (imported := match res.1 with Ok b => b | Raise _ => block_1 end).
  assert (Hres : res = (Ok imported, res.2)) by (vm_compute; reflexivity).
  exists imported. split; [vm_compute; reflexivity|].
  apply (import_block_validated (H := example_externals) block_1 imported two_forks res.2
           {| vm_class := vm_a; vm_header := header two_forks |} Hres); reflexivity.
Defined.

Lemma import_block_failure_keeps_tip_witness :
  let c' := (import_block (H := example_externals) block_5_too_soon true one_fork).2 in
  header c' = header one_fork /\ queue_block c' = queue_block one_fork /\
  vm_configuration c' = vm_configuration one_fork.
Proof.
  apply (import_block_failure_keeps_tip (H := example_externals) block_5_too_soon true one_fork
           _ NotEnoughTimeBetweenBlocks).
  vm_compute. reflexivity.
Defined.

Lemma import_block_rejected_not_persisted_witness :
  import_block (H := example_externals) wide_block_1 true one_fork
  = (Raise ValidationError, set_chaindb example_db one_fork).
Proof.
  set (tip := {| vm_class := vm_a; vm_header := header one_fork |}).
  set (vm := {| vm_class := vm_a; vm_header := BaseBlock.header wide_block_1 |}).
  set (imp := match (vm_import_block vm_a example_db (BaseBlock.header wide_block_1)
                       wide_block_1).1 with Ok b => b | Raise _ => wide_block_1 end).
  apply (import_block_rejected_not_persisted (H := example_externals) wide_block_1 imp one_fork
           vm tip example_db ValidationError).
  - right. exists tip. split; vm_compute; reflexivity.
  - reflexivity.
  - reflexivity.
  - vm_compute. reflexivity.
  - reflexivity.
  - reflexivity.
  - right. split; vm_compute; reflexivity.
Defined.

Lemma import_block_persisted_without_tip_witness :
  exists c',
    import_block (H := early_clock) block_1 true late_fork = (Raise VMNotFound, c') /\
    get_canonical_head c'
    = Ok {| parent_hash := word_of_Z 0; block_number := 1; gas_limit := 3141592;
            gas_used := 21000; timestamp := 203 |} /\
    header c' = header late_fork /\ queue_block c' = queue_block late_fork.
Proof.
  set (tip := {| vm_class := vm_a; vm_header := header late_fork |}).
  set (vm := {| vm_class := vm_a; vm_header := BaseBlock.header block_1 |}).
  exact (import_block_persisted_without_tip (H := early_clock) block_1 _ true late_fork
           vm tip example_db VMNotFound
           (or_intror (ex_intro _ tip (conj eq_refl eq_refl)))
           eq_refl eq_refl eq_refl eq_refl
           (or_intror (or_intror (conj eq_refl eq_refl))) eq_refl).
Defined.

Lemma import_block_numbers_grow_witness :
  let c' := (import_block (H := example_externals) block_1 true two_forks).2 in
  exists e, import_block (H := example_externals) block_1 true c' = (Raise e, c').
Proof.
  set (res := import_block (H := example_externals) block_1 true two_forks).
  set (imported := match res.1 with Ok b => b | Raise _ => block_1 end).
  assert (Hres : res = (Ok imported, res.2)) by (vm_compute; reflexivity).
  apply (import_block_numbers_grow (H := example_externals) block_1 imported true two_forks
           res.2 [(0, vm_a); (500, vm_b)] eq_refl example_rulesets_number_children Hres
           block_1 true).
  vm_compute. discriminate.
Defined.

Lemma import_current_queue_block_once_witness :
  exists c',
    import_current_queue_block (H := example_externals) staged_chain = (Ok tt, c') /\
    import_current_queue_block (H := example_externals) c' = (Raise AttributeError, c').
Proof.
  set (c' := (import_current_queue_block (H := example_externals) staged_chain).2).
  assert (Hrun : import_current_queue_block (H := example_externals) staged_chain = (Ok tt, c'))
    by (vm_compute; reflexivity).
  exists c'. split; [exact Hrun|].
  exact (proj2 (import_current_queue_block_once (H := example_externals) staged_chain) c' Hrun).
Defined.

Lemma get_canonical_transaction_hash_witness :
  (get_canonical_transaction (H := example_externals) one_fork (word_of_Z 7)
   = Ok (Send (example_tx 7)) /\
   any_hash (H := example_externals) (Send (example_tx 7)) = word_of_Z 7) /\
  get_canonical_transaction (H := example_externals) one_fork (word_of_Z 3)
  = Raise TransactionNotFound /\
  get_canonical_transaction (H := example_externals) misfiled_chain (word_of_Z 3)
  = Raise TransactionNotFound.
Proof.
  assert (Hget : get_canonical_transaction (H := example_externals) one_fork (word_of_Z 7)
                 = Ok (Send (example_tx 7))) by (vm_compute; reflexivity).
  split; [|split].
  - split; [exact Hget|].
    destruct (get_canonical_transaction_hash (H := example_externals) one_fork (word_of_Z 7))
      as [Hret _].
    exact (proj1 (Hret _ Hget)).
  - destruct (get_canonical_transaction_hash (H := example_externals) one_fork (word_of_Z 3))
      as (_ & Hmiss & _).
    apply Hmiss. vm_compute. reflexivity.
  - destruct (get_canonical_transaction_hash (H := example_externals) misfiled_chain
                (word_of_Z 3)) as (_ & _ & Hother).
    apply (Hother (word_of_Z 0) 0%nat false (example_header 9 0 100 3141592) vm_a
             (Send (example_tx 7))); try (vm_compute; reflexivity).
    vm_compute. discriminate.
Defined.

Lemma get_receivable_transactions_shape_witness :
  exists txs keys,
    Obj [Send (example_tx 7)] = Obj txs /\ Obj [example_key] = Obj keys /\ keys <> [] /\
    Forall2 (fun k t => any_hash (H := example_externals) t = transaction_hash k) keys txs.
Proof.
  destruct (get_receivable_transactions_shape (H := example_externals) one_fork "receiver"
              (Obj [Send (example_tx 7)]) (Obj [example_key]))
    as [[Habs _]|Hlists].
  - vm_compute. reflexivity.
  - discriminate.
  - exact Hlists.
Defined.

Lemma get_receivable_transactions_first_failure_witness :
  get_receivable_transactions (H := example_externals) half_resolved "receiver"
  = Raise TransactionNotFound.
Proof.
  apply (get_receivable_transactions_first_failure (H := example_externals) half_resolved
           "receiver" {| vm_class := example_vm 1 10 0 [example_key; missing_key];
                         vm_header := header half_resolved |}
           [example_key] [] missing_key).
  - reflexivity.
  - reflexivity.
  - repeat constructor.
  - vm_compute. reflexivity.
Defined.

Lemma get_chain_at_block_parent_never_returns_witness :
  get_chain_at_block_parent (H := example_externals) one_fork block_1 = Raise TypeError.
Proof.
  destruct (get_chain_at_block_parent_never_returns (H := example_externals) one_fork block_1)
    as (e & Hrun & _ & Htype).
  rewrite Hrun. f_equal.
  apply (Htype (BaseBlock.header genesis_block)
           (example_header 0 1 110 (3141592 + 0))); vm_compute; reflexivity.
Defined.

Lemma get_ancestors_none_witness :
  get_ancestors (H := example_externals) example_number_index one_fork 0
    (Some (header one_fork)) = Ok [].
Proof.
  apply (get_ancestors_none (H := example_externals)). left. lia.
Defined.

Lemma get_ancestors_descending_witness :
  exists blocks,
    get_ancestors (H := example_externals) example_number_index one_fork 5
      (Some (header one_fork)) = Ok blocks /\
    length blocks = 1%nat /\
    forall i block,
      blocks !! i = Some block ->
      get_canonical_block_by_number (H := example_externals) example_number_index one_fork
        (1 - 1 - Z.of_nat i) = Ok block.
Proof.
  set (blocks := [vm_block vm_a example_db (BaseBlock.header genesis_block)]).
  assert (Hrun : get_ancestors (H := example_externals) example_number_index one_fork 5
                   (Some (header one_fork)) = Ok blocks) by (vm_compute; reflexivity).
  exists blocks. split; [exact Hrun|].
  apply (get_ancestors_descending (H := example_externals) example_number_index one_fork 5
           (header one_fork) blocks); [lia|vm_compute; discriminate|exact Hrun].
Defined.

Lemma get_block_by_hash_result_witness :
  get_block_by_hash (H := example_externals) one_fork "short" = Raise ValidationError /\
  get_block_by_hash (H := example_externals) one_fork (word_of_Z 5) = Raise HeaderNotFound.
Proof.
  split.
  - apply (get_block_by_hash_result (H := example_externals) one_fork "short").
    vm_compute. discriminate.
  - apply (get_block_by_hash_result (H := example_externals) one_fork (word_of_Z 5));
      vm_compute; reflexivity.
Defined.

Lemma populate_nothing_pending_witness :
  create_receivable_signed_transactions (H := example_externals) unit None example_sign
    example_create_receive one_fork = Ok [] /\
  populate_queue_block_with_receive_tx (H := example_externals) unit None example_sign
    example_create_receive one_fork = (Ok [], one_fork).
Proof.
  apply (populate_nothing_pending (H := example_externals) unit None example_sign
           example_create_receive one_fork
           {| vm_class := vm_a; vm_header := header one_fork |}); reflexivity.
Defined.

Lemma populate_stages_what_it_returns_witness :
  let run := populate_queue_block_with_receive_tx (H := example_externals) unit None
               example_sign example_create_receive two_pending_chain in
  let vm := {| vm_class := example_vm 1 10 0 [example_key; second_key];
               vm_header := header two_pending_chain |} in
  exists receive_tx,
    run.1 = Ok receive_tx /\
    Forall2 (fun k rtx =>
               exists tx,
                 get_canonical_transaction (H := example_externals) two_pending_chain
                   (transaction_hash k) = Ok tx /\
                 signed_for unit None example_sign example_create_receive two_pending_chain
                   vm k tx rtx)
      [example_key; second_key] receive_tx /\
    (receive_tx = [] /\ run.2 = two_pending_chain \/
     exists qb1,
       queue_block run.2 = Some qb1 /\
       Forall (fun rtx => contains_receive_transaction (H := example_externals) qb1 rtx = true)
         receive_tx).
Proof.
  intros run vm.
  set (receive_tx := match run.1 with Ok l => l | Raise _ => [] end).
  assert (Hrun : run = (Ok receive_tx, run.2)) by (vm_compute; reflexivity).
  exists receive_tx. split; [vm_compute; reflexivity|].
  exact (populate_stages_what_it_returns (H := example_externals) unit None example_sign
           example_create_receive two_pending_chain run.2 vm receive_tx eq_refl Hrun).
Defined.

(** The receive transaction of the example passes; with [s] at half the
    order, rounded down, it does not. *)
Lemma receive_transaction_validate_iff_witness :
  HeliosTestnetReceiveTransaction.validate (fun _ => Ok tt) example_receive = Ok tt /\
  HeliosTestnetReceiveTransaction.validate (fun _ => Ok tt) half_order_receive <> Ok tt.
Proof.
  split.
  - apply receive_transaction_validate_iff.
    unfold UINT_256_MAX, SECPK1_N. simpl.
    repeat split; try lia; try (vm_compute; reflexivity); vm_compute; discriminate.
  - intros Hok. apply receive_transaction_validate_iff in Hok as (_ & _ & [_ Hhalf] & _).
    simpl in Hhalf. lia.
Defined.

(** A transaction to an address of twenty bytes passes; the one to the eight
    bytes of ["receiver"] does not. *)
Lemma send_transaction_validate_iff_witness :
  HeliosTestnetTransactionMethods.validate "" example_validate_canonical_address
    (fun _ => Ok tt) (fun _ => Ok tt) example_tx_to_address = Ok tt /\
  HeliosTestnetTransactionMethods.validate "" example_validate_canonical_address
    (fun _ => Ok tt) (fun _ => Ok tt) (example_tx 7) <> Ok tt.
Proof.
  split.
  - apply send_transaction_validate_iff.
    unfold UINT_256_MAX, SECPK1_N. simpl.
    repeat split; try lia; try (vm_compute; reflexivity); try (vm_compute; discriminate).
    right. reflexivity.
  - intros Hok.
    apply send_transaction_validate_iff in Hok as (_ & _ & _ & _ & [Hto|Hto] & _);
      discriminate.
Defined.

Lemma intrinsic_gas_bounds_witness :
  let gas :=
    HeliosTestnetTransactionMethods.get_intrinsic_gas "" 21000 32000 4 68
      (example_tx_with_data (String.append payload_head payload_tail)) in
  21000 + 0 + 3 * 4 <= gas /\ gas <= 21000 + 0 + 3 * 68.
Proof.
  destruct (intrinsic_gas_bounds "" 21000 32000 4 68
              (example_tx_with_data (String.append payload_head payload_tail)))
    as (Hlow & Hhigh & _); [lia|].
  split; [exact Hlow|exact Hhigh].
Defined.

Lemma intrinsic_gas_append_witness :
  let gas := HeliosTestnetTransactionMethods.get_intrinsic_gas "" 21000 32000 4 68 in
  gas (example_tx_with_data (String.append payload_head payload_tail))
  = gas (example_tx_with_data payload_head) + gas (example_tx_with_data payload_tail)
    - (21000 + 0).
Proof.
  exact (intrinsic_gas_append "" 21000 32000 4 68
           (example_tx_with_data (String.append payload_head payload_tail))
           (example_tx_with_data payload_head) (example_tx_with_data payload_tail)
           eq_refl eq_refl eq_refl).
Defined.
